(** * upload.py: registration of MARC21-catalogued files in Onedata

    A shallow embedding of [upload.py] and the properties of its
    extraction-and-registration pipeline.

    Python values are modelled as follows: [str] as [string] (read as the
    UTF-8 bytes of the text), [int] as [Z], a value that may be [None] as
    [option], an uncaught exception as [Raise]. The global counters, the
    standard output, the log and the POST requests issued so far form the
    state of the run; the state survives an exception, as Python globals
    do. *)

From Stdlib Require Import String Ascii ZArith List Bool Lia.
From Stdlib Require Import DecimalString.
From Stdlib Require DecimalPos.
Import ListNotations.
Local Open Scope string_scope.
Local Open Scope Z_scope.

(** ** Exceptions and fallible results *)

Inductive exn : Type :=
| AttributeError   (* attribute access on None *)
| IndexError       (* list index out of range *)
| ValueError       (* int() or urlparse() rejecting its input *)
| TypeError        (* None used as an int or as an iterable *)
| URLError.        (* urlopen / XML parse failure of a collection *)

Inductive result (A : Type) : Type :=
| Ok (a : A)
| Raise (e : exn).
Arguments Ok {A} a.
Arguments Raise {A} e.

Definition rbind {A B} (r : result A) (k : A -> result B) : result B :=
  match r with
  | Ok a => k a
  | Raise e => Raise e
  end.

(** ** Python string primitives *)

Module Py.

(** [c in s] for a one-character [c]. *)
Fixpoint contains (c : ascii) (s : string) : bool :=
  match s with
  | EmptyString => false
  | String d s' => Ascii.eqb c d || contains c s'
  end.

(** [s.split(sep)] for a one-character separator: never empty, one more
    segment than there are separators. *)
Fixpoint split (sep : ascii) (s : string) : list string :=
  match s with
  | EmptyString => [""]
  | String c s' =>
      if Ascii.eqb c sep then "" :: split sep s'
      else match split sep s' with
           | seg :: segs => String c seg :: segs
           | [] => [String c ""]
           end
  end.

(** [l[i]]: IndexError out of range (non-negative [i] only). *)
Definition index {A} (l : list A) (i : nat) : result A :=
  match nth_error l i with
  | Some a => Ok a
  | None => Raise IndexError
  end.

(** [x in l] where [x] may be None and [l] holds strings: [==] on strings
    is exact, None equals no string. *)
Definition mem (x : option string) (l : list string) : bool :=
  match x with
  | Some s => existsb (String.eqb s) l
  | None => false
  end.

(** Truthiness of a string or None. *)
Definition truthy_str (x : option string) : bool :=
  match x with
  | Some EmptyString => false
  | Some _ => true
  | None => false
  end.

(** Truthiness of True / False / None. *)
Definition truthy_bool (x : option bool) : bool :=
  match x with
  | Some b => b
  | None => false
  end.

(** Truthiness of an int or None. *)
Definition truthy_int (x : option Z) : bool :=
  match x with
  | Some n => negb (n =? 0)
  | None => false
  end.

(** ASCII whitespace: tab to carriage return, the four separators
    0x1c-0x1f, space. *)
Definition is_space (c : ascii) : bool :=
  let n := nat_of_ascii c in
  ((9 <=? n) && (n <=? 13))%nat || ((28 <=? n) && (n <=? 32))%nat.

Definition is_ascii (c : ascii) : bool := (nat_of_ascii c <? 128)%nat.

Definition is_digit (c : ascii) : bool :=
  let n := nat_of_ascii c in ((48 <=? n) && (n <=? 57))%nat.

Definition digit_val (c : ascii) : Z := Z.of_nat (nat_of_ascii c) - 48.

Fixpoint lstrip (p : ascii -> bool) (s : string) : string :=
  match s with
  | EmptyString => EmptyString
  | String c s' => if p c then lstrip p s' else s
  end.

Fixpoint rstrip (p : ascii -> bool) (s : string) : string :=
  match s with
  | EmptyString => EmptyString
  | String c s' =>
      match rstrip p s' with
      | EmptyString => if p c then EmptyString else String c EmptyString
      | r => String c r
      end
  end.

Definition strip (p : ascii -> bool) (s : string) : string :=
  rstrip p (lstrip p s).

(** Digits of an integer literal, after the sign: digits with single
    underscores between them. [acc] is the value read so far, [prev] tells
    whether the previous character was a digit. *)
Fixpoint int_digits (s : string) (acc : Z) (prev : bool) : option Z :=
  match s with
  | EmptyString => if prev then Some acc else None
  | String c s' =>
      if is_digit c then int_digits s' (10 * acc + digit_val c) true
      else if Ascii.eqb c "_" then
             if prev then int_digits s' acc false else None
           else None
  end.

(** [int(s)] in base 10 on ASCII text: surrounding whitespace stripped, an
    optional sign, then the digits; ValueError otherwise. The cap that
    recent interpreters put on the number of digits is not modelled. *)
Definition int (s : string) : result Z :=
  match strip is_space s with
  | String "-" d =>
      match int_digits d 0 false with
      | Some n => Ok (- n)
      | None => Raise ValueError
      end
  | String "+" d =>
      match int_digits d 0 false with
      | Some n => Ok n
      | None => Raise ValueError
      end
  | d =>
      match int_digits d 0 false with
      | Some n => Ok n
      | None => Raise ValueError
      end
  end.

(** [str(n)] *)
Definition str_of_int (n : Z) : string := NilZero.string_of_int (Z.to_int n).

End Py.

(** ** pymarc records *)

Record Subfield : Type := { code : string; value : string }.

Record Field : Type := {
  tag : string;
  indicator1 : string;
  indicator2 : string;
  subfields : list Subfield
}.

Record MarcRecord : Type := { fields : list Field }.

(** [field.get_subfields(code)]: the values of the subfields with that
    code, in order. *)
Definition get_subfields (f : Field) (c : string) : list string :=
  map value (filter (fun sf => String.eqb (code sf) c) (subfields f)).

(** [record.get_fields(tag)]: the fields with that tag, in order. *)
Definition get_fields (r : MarcRecord) (t : string) : list Field :=
  filter (fun f => String.eqb (tag f) t) (fields r).

(** ** urllib.parse.urlparse

    A model of CPython's [urlparse] (the shape of its 3.11 code) on ASCII
    input: leading C0 controls and spaces dropped, tab and newline
    characters removed, scheme detection, authority split with the
    bracket check that raises ValueError, then fragment, query and
    parameters. The Unicode-normalisation test of non-ASCII authorities
    and the validation of the address between brackets are not modelled.
    The theorems below depend on the result only through [scheme], [path]
    and the bracket check. *)

Module Urllib.

Record ParseResult : Type := {
  scheme : string;
  netloc : string;
  path : string;
  params : string;
  query : string;
  fragment : string
}.

Definition is_c0_or_space (c : ascii) : bool := (nat_of_ascii c <=? 32)%nat.

Definition is_unsafe (c : ascii) : bool :=
  let n := nat_of_ascii c in ((n =? 9) || (n =? 10) || (n =? 13))%nat.

Definition is_alpha (c : ascii) : bool :=
  let n := nat_of_ascii c in
  (((65 <=? n) && (n <=? 90)) || ((97 <=? n) && (n <=? 122)))%nat.

Definition is_scheme_char (c : ascii) : bool :=
  is_alpha c || Py.is_digit c || Py.contains c "+-.".

Definition lower_char (c : ascii) : ascii :=
  let n := nat_of_ascii c in
  if ((65 <=? n) && (n <=? 90))%nat then ascii_of_nat (n + 32) else c.

Fixpoint lower (s : string) : string :=
  match s with
  | EmptyString => EmptyString
  | String c s' => String (lower_char c) (lower s')
  end.

Fixpoint remove (p : ascii -> bool) (s : string) : string :=
  match s with
  | EmptyString => EmptyString
  | String c s' => if p c then remove p s' else String c (remove p s')
  end.

Fixpoint all_chars (p : ascii -> bool) (s : string) : bool :=
  match s with
  | EmptyString => true
  | String c s' => p c && all_chars p s'
  end.

(** Cut [s] before its first character satisfying [p]; the second part is
    empty when there is none. *)
Fixpoint break (p : ascii -> bool) (s : string) : string * string :=
  match s with
  | EmptyString => (EmptyString, EmptyString)
  | String c s' =>
      if p c then (EmptyString, s)
      else let (a, b) := break p s' in (String c a, b)
  end.

(** [s.split(c, 1)] when [c] occurs in [s], [(s, "")] otherwise. *)
Definition split_once (c : ascii) (s : string) : string * string :=
  match break (Ascii.eqb c) s with
  | (a, String _ b) => (a, b)
  | (_, EmptyString) => (s, EmptyString)
  end.

(** The scheme, lower-cased, and the rest of [url]; an empty scheme and
    [url] itself when [url] does not start with one. *)
Definition split_scheme (url : string) : string * string :=
  match break (Ascii.eqb ":") url with
  | (String c0 pre, String _ rest) =>
      if is_alpha c0 && all_chars is_scheme_char (String c0 pre)
      then (lower (String c0 pre), rest)
      else (EmptyString, url)
  | _ => (EmptyString, url)
  end.

Definition splitnetloc (url : string) : string * string :=
  break (fun c => Py.contains c "/?#") url.

Definition urlsplit (url0 : string) : result (string * string * string * string * string) :=
  let url := remove is_unsafe (Py.lstrip is_c0_or_space url0) in
  let (scheme, url) := split_scheme url in
  rbind
    (match url with
     | String "/" (String "/" rest) =>
         let (netloc, url') := splitnetloc rest in
         if xorb (Py.contains "[" netloc) (Py.contains "]" netloc)
         then Raise ValueError
         else Ok (netloc, url')
     | _ => Ok (EmptyString, url)
     end)
    (fun '(netloc, url) =>
       let (url, fragment) := split_once "#" url in
       let (url, query) := split_once "?" url in
       Ok (scheme, netloc, url, query, fragment)).

Definition uses_params : list string :=
  [""; "ftp"; "hdl"; "prospero"; "http"; "imap"; "https"; "shttp"; "rtsp";
   "rtspu"; "sip"; "sips"; "mms"; "sftp"; "tel"].

(** [url] cut before its last '/' (for a [url] that contains one). *)
Fixpoint cut_last_slash (url : string) : string * string :=
  match url with
  | EmptyString => (EmptyString, EmptyString)
  | String c s' =>
      if Py.contains "/" s'
      then let (h, t) := cut_last_slash s' in (String c h, t)
      else (EmptyString, url)
  end.

Definition splitparams (url : string) : string * string :=
  if Py.contains "/" url then
    let (h, t) := cut_last_slash url in
    match break (Ascii.eqb ";") t with
    | (a, String _ b) => (h ++ a, b)
    | (_, EmptyString) => (url, EmptyString)
    end
  else split_once ";" url.

(** [urlparse(url)]; a [url] that is None is read as the empty string. *)
Definition urlparse (url : option string) : result ParseResult :=
  rbind (urlsplit (match url with Some s => s | None => EmptyString end))
    (fun '(scheme, netloc, url, query, fragment) =>
       let (url, params) :=
         if existsb (String.eqb scheme) uses_params && Py.contains ";" url
         then splitparams url
         else (url, EmptyString) in
       Ok {| scheme := scheme; netloc := netloc; path := url;
             params := params; query := query; fragment := fragment |}).

End Urllib.

(** ** Run-wide configuration and constants *)

Record Args : Type := {
  host : string;
  space_id : string;
  storage_id : string;
  token : string;
  collections : list string;
  mode : string;
  disable_auto_detection : bool;
  logging_freq : option Z;
  disable_cert_verification : bool
}.

Definition ELECTRONIC_LOCATION_AND_ACCESS : string := "856".
Definition HTTP_ACCESS_METHOD : string := "4".
Definition ACCEPTED_TYPES : list string := ["MP4"; "MKV"; "MOV"].

Definition REGISTER_FILE_ENDPOINT (h : string) : string :=
  "https://" ++ h ++ "/api/v3/oneprovider/data/register".

(** ** Registration requests and their outcomes *)

Module Json.
Record Payload : Type := {
  spaceId : string;
  storageId : string;
  storageFileId : option string;
  destinationPath : option string;
  size : option Z;
  mode : string;
  xattrs_checksum : string;
  autoDetectAttributes : bool
}.
End Json.

(** One call of [requests.post]. *)
Record PostRequest : Type := {
  url : string;
  x_auth_token : string;
  json : Json.Payload;
  verify : bool
}.

(** What [requests.post] does: a response, or an exception of the
    transport. *)
Inductive post_outcome : Type :=
| Response (status_code : Z) (content : string)
| TransportError (e : string).

Definition CREATED : Z := 201.

(** ** Output and log lines *)

Inductive Output : Type :=
| ProcessingCollection (collection_url : string)
| RegisteredFiles (n : Z)
| TotalCount (n : Z)
| TotalSize (n : Z).

Definition render (o : Output) : string :=
  match o with
  | ProcessingCollection u => "Processing collection " ++ u
  | RegisteredFiles n => "Registered " ++ Py.str_of_int n ++ " files"
  | TotalCount n =>
      String (ascii_of_nat 10)
        ("Total registered files count: " ++ Py.str_of_int n)
  | TotalSize n => "Total size: " ++ Py.str_of_int n
  end.

(** The two [logging.error] calls of [register_file], with the values
    they format. *)
Inductive LogLine : Type :=
| FailedWithStatus (storage_file_id : option string) (status_code : Z)
    (content : string)
| FailedDueTo (storage_file_id : option string) (e : string).

(** ** State of a run *)

Record State : Type := {
  total_size : Z;
  total_count : Z;
  stdout : list Output;
  errors : list LogLine;
  posted : list PostRequest
}.

Definition initial_state : State :=
  {| total_size := 0; total_count := 0; stdout := []; errors := [];
     posted := [] |}.

(** A computation: runs from a state to a state and either a value or an
    uncaught exception. *)
Definition M (A : Type) : Type := State -> State * result A.

Definition ret {A} (a : A) : M A := fun st => (st, Ok a).

Definition raise {A} (e : exn) : M A := fun st => (st, Raise e).

Definition bind {A B} (m : M A) (k : A -> M B) : M B :=
  fun st =>
    match m st with
    | (st', Ok a) => k a st'
    | (st', Raise e) => (st', Raise e)
    end.

Definition lift {A} (r : result A) : M A := fun st => (st, r).

Definition get : M State := fun st => (st, Ok st).

Definition modify (f : State -> State) : M unit := fun st => (f st, Ok tt).

Definition exec {A} (m : M A) (st : State) : State := fst (m st).
Definition eval {A} (m : M A) (st : State) : result A := snd (m st).

Declare Scope m_scope.
Delimit Scope m_scope with M.
Notation "x <- c ;; k" := (bind c (fun x => k))
  (at level 61, c at next level, right associativity) : m_scope.
Notation "c ;; k" := (bind c (fun _ => k))
  (at level 61, right associativity) : m_scope.
Local Open Scope m_scope.

(** A [for] loop: the body on each element in order, stopped by the first
    exception. *)
Fixpoint for_each {A} (l : list A) (body : A -> M unit) : M unit :=
  match l with
  | [] => ret tt
  | x :: l' => body x ;; for_each l' body
  end.

(** Updates of one component of the state. *)
Definition with_stdout (st : State) (o : Output) : State :=
  {| total_size := total_size st; total_count := total_count st;
     stdout := stdout st ++ [o]; errors := errors st; posted := posted st |}.

Definition with_error (st : State) (l : LogLine) : State :=
  {| total_size := total_size st; total_count := total_count st;
     stdout := stdout st; errors := errors st ++ [l]; posted := posted st |}.

Definition with_posted (st : State) (req : PostRequest) : State :=
  {| total_size := total_size st; total_count := total_count st;
     stdout := stdout st; errors := errors st; posted := posted st ++ [req] |}.

Definition with_total_size (st : State) (n : Z) : State :=
  {| total_size := n; total_count := total_count st;
     stdout := stdout st; errors := errors st; posted := posted st |}.

Definition with_total_count (st : State) (n : Z) : State :=
  {| total_size := total_size st; total_count := n;
     stdout := stdout st; errors := errors st; posted := posted st |}.

Definition print (o : Output) : M unit :=
  modify (fun st => with_stdout st o).

Definition logging_error (l : LogLine) : M unit :=
  modify (fun st => with_error st l).

Definition set_total_size (n : Z) : M unit :=
  modify (fun st => with_total_size st n).

Definition set_total_count (n : Z) : M unit :=
  modify (fun st => with_total_count st n).

(** [int + x] where [x] may be None. *)
Definition int_add (a : Z) (x : option Z) : result Z :=
  match x with
  | Some b => Ok (a + b)
  | None => Raise TypeError
  end.

(** ** The program *)

Definition strip_server_url (storage_file_id : option string)
  : result (option string) :=
  rbind (Urllib.urlparse storage_file_id) (fun parsed_url =>
    if Py.truthy_str (Some (Urllib.scheme parsed_url))
    then Ok (Some (Urllib.path parsed_url))
    else Ok storage_file_id).

Definition get_access_method (field : Field) : string := indicator1 field.

Definition is_http_access_method (field : Field) : bool :=
  String.eqb (get_access_method field) HTTP_ACCESS_METHOD.

Definition get_subfield (field : Field) (subfield_name : string)
  : option string :=
  match get_subfields field subfield_name with
  | v :: _ => Some v
  | [] => None
  end.

Definition get_type (field : Field) : option string := get_subfield field "q".

Definition get_size (field : Field) : result (option Z) :=
  let size := get_subfield field "s" in
  if Py.truthy_str size then
    match size with
    | Some s => rbind (Py.int s) (fun n => Ok (Some n))
    | None => Ok None
    end
  else Ok None.

Definition get_control_number (field : Field) : option string :=
  get_subfield field "w".

Definition get_uri (field : Field) : option string := get_subfield field "u".

Definition parse_md5 (control_number : option string) : result string :=
  match control_number with
  | Some s => Py.index (Py.split ";" s) 1
  | None => Raise AttributeError
  end.

Definition get_md5_checksum (field : Field) : result string :=
  let control_number := get_control_number field in
  parse_md5 control_number.

Section Run.

(** The command line. *)
Variable args : Args.

(** The world: what [urlopen] followed by [parse_xml_to_array] gives for a
    collection URL, and what the provider answers to a POST, given the
    requests made before it. *)
Variable marc21_xml : string -> result (list MarcRecord).
Variable requests_post : list PostRequest -> PostRequest -> post_outcome.

Definition post (req : PostRequest) : M post_outcome :=
  fun st => (with_posted st req, Ok (requests_post (posted st) req)).

Definition payload_of (storage_file_id : option string) (size : option Z)
    (checksum : string) : Json.Payload :=
  {| Json.spaceId := space_id args;
     Json.storageId := storage_id args;
     Json.storageFileId := storage_file_id;
     Json.destinationPath := storage_file_id;
     Json.size := size;
     Json.mode := mode args;
     Json.xattrs_checksum := checksum;
     Json.autoDetectAttributes := negb (disable_auto_detection args) |}.

Definition request_of (payload : Json.Payload) : PostRequest :=
  {| url := REGISTER_FILE_ENDPOINT (host args);
     x_auth_token := token args;
     json := payload;
     verify := negb (disable_cert_verification args) |}.

(** Returns True, False or, after an exception of the transport, None. *)
Definition register_file (storage_file_id : option string) (size : option Z)
    (checksum : string) : M (option bool) :=
  storage_file_id <- lift (strip_server_url storage_file_id) ;;
  let payload := payload_of storage_file_id size checksum in
  response <- post (request_of payload) ;;
  match response with
  | Response status_code content =>
      if status_code =? CREATED then ret (Some true)
      else
        logging_error (FailedWithStatus storage_file_id status_code content) ;;
        ret (Some false)
  | TransportError e =>
      logging_error (FailedDueTo storage_file_id e) ;;
      ret None
  end.

Definition download_and_load_marc21_record (url : string)
  : result (option MarcRecord) :=
  rbind (marc21_xml url) (fun records =>
    match records with
    | r :: _ => Ok (Some r)
    | [] => Ok None
    end).

(** None when the collection has no record; a record itself is truthy. *)
Definition get_file_fields (collection_url : string)
  : result (option (list Field)) :=
  rbind (download_and_load_marc21_record collection_url)
    (fun collection_record =>
       match collection_record with
       | Some r => Ok (Some (get_fields r ELECTRONIC_LOCATION_AND_ACCESS))
       | None => Ok None
       end).

(** [args.logging_freq and total_count % args.logging_freq == 0 and
    total_count > 0] *)
Definition log_now (count : Z) : bool :=
  match logging_freq args with
  | Some n =>
      if Py.truthy_int (Some n)
      then (count mod n =? 0) && (count >? 0)
      else false
  | None => false
  end.

(** Lines 205-209: the arguments are evaluated from left to right, then
    the file is registered and, on a truthy answer, counted. *)
Definition register_and_count (file_field : Field) : M unit :=
  let uri := get_uri file_field in
  size <- lift (get_size file_field) ;;
  checksum <- lift (get_md5_checksum file_field) ;;
  registered <- register_file uri size checksum ;;
  if Py.truthy_bool registered then
    size <- lift (get_size file_field) ;;
    st <- get ;;
    new_size <- lift (int_add (total_size st) size) ;;
    set_total_size new_size ;;
    st <- get ;;
    set_total_count (total_count st + 1) ;;
    st <- get ;;
    if log_now (total_count st)
    then print (RegisteredFiles (total_count st))
    else ret tt
  else ret tt.

(** Lines 203-209: the body of the loop over the fields. *)
Definition process_field (file_field : Field) : M unit :=
  if is_http_access_method file_field then
    if Py.mem (get_type file_field) ACCEPTED_TYPES then
      register_and_count file_field
    else ret tt
  else ret tt.

(** Lines 200-209: the body of the loop over the collections. Iterating
    over None is a TypeError. *)
Definition process_collection (collection_url : string) : M unit :=
  print (ProcessingCollection collection_url) ;;
  file_fields <- lift (get_file_fields collection_url) ;;
  match file_fields with
  | Some fs => for_each fs process_field
  | None => raise TypeError
  end.

(** Lines 199-212. *)
Definition main : M unit :=
  for_each (collections args) process_collection ;;
  st <- get ;;
  print (TotalCount (total_count st)) ;;
  st <- get ;;
  print (TotalSize (total_size st)).

End Run.

(** ** Notions used by the statements *)

(** The guard of lines 203-204 as one boolean. *)
Definition eligible (field : Field) : bool :=
  is_http_access_method field && Py.mem (get_type field) ACCEPTED_TYPES.

(** Eligibility in the words of the specification: the first indicator is
    the HTTP access code and the first value of subfield 'q' is one of
    the three accepted media types, compared exactly. *)
Definition eligible_spec (field : Field) : Prop :=
  indicator1 field = "4" /\
  exists t rest,
    get_subfields field "q" = t :: rest /\
    (t = "MP4" \/ t = "MKV" \/ t = "MOV").

(** The run of [main] reaches field [f] in state [st]: the collections
    before [f]'s were processed without exception, [f]'s collection was
    fetched, and so were the fields before [f]. *)
Definition run_reaches (args : Args)
    (marc21_xml : string -> result (list MarcRecord))
    (requests_post : list PostRequest -> PostRequest -> post_outcome)
    (f : Field) (st : State) : Prop :=
  exists urls1 collection_url urls2 r rs fs1 fs2 st0,
    collections args = (urls1 ++ collection_url :: urls2)%list /\
    for_each urls1 (process_collection args marc21_xml requests_post)
      initial_state = (st0, Ok tt) /\
    marc21_xml collection_url = Ok (r :: rs) /\
    get_fields r ELECTRONIC_LOCATION_AND_ACCESS = (fs1 ++ f :: fs2)%list /\
    for_each fs1 (process_field args requests_post)
      (exec (print (ProcessingCollection collection_url)) st0) = (st, Ok tt).

(** The periodic progress lines among the output, as the counts shown. *)
Fixpoint progress_counts (out : list Output) : list Z :=
  match out with
  | [] => []
  | RegisteredFiles n :: out' => n :: progress_counts out'
  | _ :: out' => progress_counts out'
  end.

(** The counts 1, 2, ..., [n]. *)
Definition counts_upto (n : Z) : list Z :=
  map Z.of_nat (seq 1 (Z.to_nat n)).

(** The state after the counters are updated for a file of [n] bytes. *)
Definition counted (st : State) (n : Z) : State :=
  with_total_count (with_total_size st (total_size st + n))
    (total_count st + 1).

(** The counters do not go down from [st] to [st']. *)
Definition count_le (st st' : State) : Prop :=
  total_count st <= total_count st'.

Definition size_le (st st' : State) : Prop :=
  total_size st <= total_size st'.

(** What the progress lines must be at any moment of a run: one line for
    each count reached so far at which a line is due, in order. *)
Definition progress_inv (args : Args) (st : State) : Prop :=
  0 <= total_count st /\
  progress_counts (stdout st)
  = filter (log_now args) (counts_upto (total_count st)).

(** Every run of [m] takes a state to one related to it by [R]. *)
Definition steps (R : State -> State -> Prop) {A} (m : M A) : Prop :=
  forall st, R st (exec m st).

(** [I] is carried from [st] to [st']. *)
Definition keeps (I : State -> Prop) (st st' : State) : Prop := I st -> I st'.

(** A size that is absent or not negative. *)
Definition size_not_negative (f : Field) : Prop :=
  forall n, get_size f = Ok (Some n) -> 0 <= n.

(** ** Notions used by the further properties *)

(** Two worlds agree on what [download_and_load_marc21_record] sees of a
    collection: the same exception, or the same first record. *)
Definition same_first_record
    (m1 m2 : string -> result (list MarcRecord)) : Prop :=
  forall collection_url,
    match m1 collection_url, m2 collection_url with
    | Ok rs1, Ok rs2 => hd_error rs1 = hd_error rs2
    | Raise e1, Raise e2 => e1 = e2
    | _, _ => False
    end.

(** A request that carries the configuration of the run: the endpoint
    of the host, the token, the certificate check, the space, the
    storage, the mode and the detection flag of the command line, and one
    file id for both the storage file and the destination. *)
Definition request_from_args (args : Args) (req : PostRequest) : Prop :=
  url req = REGISTER_FILE_ENDPOINT (host args) /\
  x_auth_token req = token args /\
  verify req = negb (disable_cert_verification args) /\
  Json.spaceId (json req) = space_id args /\
  Json.storageId (json req) = storage_id args /\
  Json.mode (json req) = mode args /\
  Json.autoDetectAttributes (json req) = negb (disable_auto_detection args) /\
  Json.destinationPath (json req) = Json.storageFileId (json req).

(** [req] is the request for field [f]: its resolved URI, its size and
    its checksum. *)
Definition request_for (args : Args) (f : Field) (req : PostRequest) : Prop :=
  exists size checksum fid,
    get_size f = Ok size /\ get_md5_checksum f = Ok checksum /\
    strip_server_url (get_uri f) = Ok fid /\
    req = request_of args (payload_of args fid size checksum).

(** Requests made, files counted and failures logged between two states. *)
Definition new_requests (st st' : State) : Z :=
  Z.of_nat (length (posted st')) - Z.of_nat (length (posted st)).

Definition new_outcomes (st st' : State) : Z :=
  (total_count st' - total_count st)
  + (Z.of_nat (length (errors st')) - Z.of_nat (length (errors st))).

(** Every request made was counted or logged. *)
Definition accounted (st st' : State) : Prop :=
  new_requests st st' = new_outcomes st st'.

(** Every request made was counted or logged, but at most one. *)
Definition accounted_but_one (st st' : State) : Prop :=
  new_outcomes st st' <= new_requests st st' <= new_outcomes st st' + 1.

(** Every run of [m] relates its first and last states by [N] when it
    ends normally and by [E] when it ends with an exception. *)
Definition outcome_rel (N E : State -> State -> Prop) {A} (m : M A) : Prop :=
  forall st,
    match m st with
    | (st', Ok _) => N st st'
    | (st', Raise _) => E st st'
    end.

(** A field whose size, checksum and URI can be read. *)
Definition readable (f : Field) : Prop :=
  exists size checksum fid,
    get_size f = Ok size /\ get_md5_checksum f = Ok checksum /\
    strip_server_url (get_uri f) = Ok fid.

(** The sum of the declared sizes of fields, an absent size counting for
    nothing. *)
Fixpoint declared_sizes (fs : list Field) : Z :=
  match fs with
  | [] => 0
  | f :: fs' =>
      match get_size f with
      | Ok (Some n) => n + declared_sizes fs'
      | _ => declared_sizes fs'
      end
  end.

(** The summary lines and the collection lines among the output. *)
Definition is_summary (o : Output) : bool :=
  match o with
  | TotalCount _ | TotalSize _ => true
  | _ => false
  end.

Fixpoint collection_lines (out : list Output) : list string :=
  match out with
  | [] => []
  | ProcessingCollection u :: out' => u :: collection_lines out'
  | _ :: out' => collection_lines out'
  end.

(** The shape of a plain URL [scheme://host/path]: a scheme of letters,
    digits, '+', '-' and '.' that starts with a letter; an ASCII host
    without '/', '?', '#', brackets, tab or newline; a path that is empty
    or starts with '/' and has no '?', '#', ';', tab or newline. *)
Definition valid_scheme (sch : string) : bool :=
  match sch with
  | EmptyString => false
  | String c0 _ =>
      Urllib.is_alpha c0 && Urllib.all_chars Urllib.is_scheme_char sch
  end.

Definition host_char (c : ascii) : bool :=
  Py.is_ascii c && negb (Py.contains c "/?#[]") && negb (Urllib.is_unsafe c).

Definition path_char (c : ascii) : bool :=
  negb (Py.contains c "?#;") && negb (Urllib.is_unsafe c).

Definition rooted (path : string) : bool :=
  match path with
  | EmptyString => true
  | String c _ => Ascii.eqb c "/"
  end.

(** The link fields that a run finds in a collection: those of its first
    record. *)
Definition link_fields (marc21_xml : string -> result (list MarcRecord))
    (collection_url : string) : list Field :=
  match marc21_xml collection_url with
  | Ok (r :: _) => get_fields r ELECTRONIC_LOCATION_AND_ACCESS
  | _ => []
  end.

(** ** Sample data *)

Module Sample.

Definition sf (c v : string) : Subfield := {| code := c; value := v |}.

Definition link (ind1 : string) (sfs : list Subfield) : Field :=
  {| tag := "856"; indicator1 := ind1; indicator2 := " "; subfields := sfs |}.

Definition control_number : string :=
  "(OCoLC)12345;d41d8cd98f00b204e9800998ecf8427e".

Definition mp4 : Field :=
  link "4" [sf "u" "https://host/a/b.mp4"; sf "q" "MP4"; sf "s" "1000";
            sf "w" control_number].

Definition mov : Field :=
  link "4" [sf "u" "/a/c.mov"; sf "q" "MOV"; sf "s" "500";
            sf "w" "x;0cc175b9c0f1b6a831c399e269772661"].

Definition ftp : Field :=
  link "1" [sf "u" "ftp://host/a/d.mp4"; sf "q" "MP4"; sf "s" "7";
            sf "w" "y;92eb5ffee6ae2fec3ad71c777531578f"].

Definition lowercase : Field :=
  link "4" [sf "u" "/a/e.mp4"; sf "q" "mp4"; sf "s" "7"; sf "w" "z;0"].

Definition no_type : Field :=
  link "4" [sf "u" "/a/f.mp4"; sf "s" "7"; sf "w" "z;0"].

Definition no_size : Field :=
  link "4" [sf "u" "/a/g.mp4"; sf "q" "MP4"; sf "w" "z;0"].

Definition negative_size : Field :=
  link "4" [sf "u" "/a/h.mp4"; sf "q" "MP4"; sf "s" "-5"; sf "w" "z;0"].

Definition no_separator : Field :=
  link "4" [sf "u" "/a/i.mp4"; sf "q" "MP4"; sf "s" "7"; sf "w" "(OCoLC)12345"].

Definition no_control_number : Field :=
  link "4" [sf "u" "/a/j.mp4"; sf "q" "MP4"; sf "s" "7"].

Definition no_control_number_bad_size : Field :=
  link "4" [sf "u" "/a/k.mp4"; sf "q" "MP4"; sf "s" "abc"].

Definition title : Field :=
  {| tag := "245"; indicator1 := "0"; indicator2 := "0";
     subfields := [sf "a" "A recording"] |}.

Definition args (freq : option Z) (urls : list string) : Args :=
  {| host := "provider.example"; space_id := "space1";
     storage_id := "storage1"; token := "secret"; collections := urls;
     mode := "0664"; disable_auto_detection := false; logging_freq := freq;
     disable_cert_verification := false |}.

(** Every collection holds one record with the given fields. *)
Definition one_record (fs : list Field)
  : string -> result (list MarcRecord) :=
  fun _ => Ok [{| fields := fs |}].

(** Every collection document parses to no record at all. *)
Definition no_record : string -> result (list MarcRecord) :=
  fun _ => Ok [].

(** A provider that answers every request with the same status. *)
Definition answers (status : Z)
  : list PostRequest -> PostRequest -> post_outcome :=
  fun _ _ => Response status "".

(** A provider that cannot be reached. *)
Definition unreachable : list PostRequest -> PostRequest -> post_outcome :=
  fun _ _ => TransportError "connection refused".

End Sample.

Example split_example :
  Py.split ";" "a;b;;c" = ["a"; "b"; ""; "c"].
Proof. reflexivity. Qed.

Example int_examples :
  Py.int "1000" = Ok 1000 /\ Py.int " -5 " = Ok (-5) /\
  Py.int "1_000" = Ok 1000 /\ Py.int "" = Raise ValueError /\
  Py.int "12a" = Raise ValueError /\ Py.int "1__0" = Raise ValueError /\
  Py.int "+" = Raise ValueError.
Proof. repeat split; reflexivity. Qed.

Example str_of_int_examples :
  Py.str_of_int 1500 = "1500" /\ Py.str_of_int 0 = "0" /\
  Py.str_of_int (-5) = "-5".
Proof. repeat split; reflexivity. Qed.

Example urlparse_examples :
  Urllib.urlparse (Some "https://host/a/b.mp4")
  = Ok {| Urllib.scheme := "https"; Urllib.netloc := "host";
          Urllib.path := "/a/b.mp4"; Urllib.params := "";
          Urllib.query := ""; Urllib.fragment := "" |}
  /\ Urllib.urlparse (Some "HTTP://h:80/p/q;x=1?k=v#frag")
  = Ok {| Urllib.scheme := "http"; Urllib.netloc := "h:80";
          Urllib.path := "/p/q"; Urllib.params := "x=1";
          Urllib.query := "k=v"; Urllib.fragment := "frag" |}
  /\ Urllib.urlparse (Some "/a/b.mp4")
  = Ok {| Urllib.scheme := ""; Urllib.netloc := "";
          Urllib.path := "/a/b.mp4"; Urllib.params := "";
          Urllib.query := ""; Urllib.fragment := "" |}
  /\ Urllib.urlparse (Some "http://[::1") = Raise ValueError.
Proof. repeat split; reflexivity. Qed.

(** Eligibility on the sample fields: the comparison of the media type is
    exact, so "mp4" is refused. *)
Example eligibility_examples :
  eligible Sample.mp4 = true /\ eligible Sample.mov = true /\
  eligible Sample.ftp = false /\ eligible Sample.lowercase = false /\
  eligible Sample.no_type = false /\ eligible Sample.title = false.
Proof. repeat split; reflexivity. Qed.

(** The scenario of three link fields, two of them eligible: two requests,
    two files and 1500 bytes counted. *)
Example three_fields_scenario :
  let a := Sample.args None ["https://catalog.example/1.xml"] in
  let run :=
    main a (Sample.one_record [Sample.title; Sample.mp4; Sample.mov; Sample.ftp])
      (Sample.answers 201) initial_state in
  snd run = Ok tt /\
  total_count (fst run) = 2 /\ total_size (fst run) = 1500 /\
  map (fun r => Json.storageFileId (json r)) (posted (fst run))
    = [Some "/a/b.mp4"; Some "/a/c.mov"] /\
  map render (stdout (fst run))
    = ["Processing collection https://catalog.example/1.xml";
       String (ascii_of_nat 10) "Total registered files count: 2";
       "Total size: 1500"].
Proof. vm_compute. repeat split; reflexivity. Qed.

(** * Properties *)

(** ** Loops and exceptions *)

Lemma for_each_app {A} (l1 l2 : list A) (body : A -> M unit) (st : State) :
  for_each (l1 ++ l2) body st =
  match for_each l1 body st with
  | (st1, Ok _) => for_each l2 body st1
  | (st1, Raise e) => (st1, Raise e)
  end.
Proof.
  revert st. induction l1 as [|x l1 IH]; intros st; simpl.
  - reflexivity.
  - unfold bind. destruct (body x st) as [st1 [u|e]]; [apply IH | reflexivity].
Qed.

Lemma for_each_raise {A} (l1 l2 : list A) (x : A) (body : A -> M unit)
    (st st1 st2 : State) (e : exn) :
  for_each l1 body st = (st1, Ok tt) ->
  body x st1 = (st2, Raise e) ->
  for_each (l1 ++ x :: l2) body st = (st2, Raise e).
Proof.
  intros H1 Hx. rewrite for_each_app, H1. simpl. unfold bind. now rewrite Hx.
Qed.

(** ** A relation kept by every run of a computation *)

Section Steps.

Variable R : State -> State -> Prop.
Hypothesis R_refl : forall st, R st st.
Hypothesis R_trans : forall a b c, R a b -> R b c -> R a c.

Lemma steps_ret {A} (a : A) : steps R (ret a).
Proof. intros st. apply R_refl. Qed.

Lemma steps_raise {A} (e : exn) : steps R (@raise A e).
Proof. intros st. apply R_refl. Qed.

Lemma steps_lift {A} (r : result A) : steps R (lift r).
Proof. intros st. apply R_refl. Qed.

Lemma steps_get : steps R get.
Proof. intros st. apply R_refl. Qed.

Lemma steps_bind {A B} (m : M A) (k : A -> M B) :
  steps R m -> (forall a, steps R (k a)) -> steps R (bind m k).
Proof.
  intros Hm Hk st. unfold exec, bind. specialize (Hm st). unfold exec in Hm.
  destruct (m st) as [st1 [a|e]]; simpl in *.
  - eapply R_trans; [exact Hm | apply (Hk a st1)].
  - exact Hm.
Qed.

Lemma steps_for_each {A} (l : list A) (body : A -> M unit) :
  (forall x, In x l -> steps R (body x)) -> steps R (for_each l body).
Proof.
  induction l as [|x l IH]; intros H; simpl.
  - apply steps_ret.
  - apply steps_bind.
    + apply H. now left.
    + intros _. apply IH. intros y Hy. apply H. now right.
Qed.

End Steps.

(** ** Python primitives *)

Lemma split_no_sep (sep : ascii) (s : string) :
  Py.contains sep s = false -> Py.split sep s = [s].
Proof.
  induction s as [|c s IH]; simpl; intros H.
  - reflexivity.
  - apply orb_false_iff in H. destruct H as [Hc Hs].
    rewrite Ascii.eqb_sym, Hc. now rewrite (IH Hs).
Qed.

Lemma split_at_sep (sep : ascii) (a t : string) :
  Py.contains sep a = false ->
  Py.split sep (a ++ String sep t) = a :: Py.split sep t.
Proof.
  induction a as [|c a IH]; simpl; intros H.
  - now rewrite Ascii.eqb_refl.
  - apply orb_false_iff in H. destruct H as [Hc Ha].
    rewrite Ascii.eqb_sym, Hc. now rewrite (IH Ha).
Qed.

Lemma first_sep (sep : ascii) (s : string) :
  Py.contains sep s = true ->
  exists a t, s = a ++ String sep t /\ Py.contains sep a = false.
Proof.
  induction s as [|c s IH]; simpl; intros H; [discriminate|].
  destruct (Ascii.eqb sep c) eqn:Hc.
  - apply Ascii.eqb_eq in Hc. subst c. now exists "", s.
  - simpl in H. destruct (IH H) as (a & t & -> & Ha).
    exists (String c a), t. simpl. now rewrite Hc, Ha.
Qed.

(** The segment that starts a string: up to the next separator or to the
    end. *)
Lemma first_segment (sep : ascii) (t : string) :
  exists b rest,
    t = b ++ rest /\ Py.contains sep b = false /\
    (rest = "" \/ exists r, rest = String sep r) /\
    exists segs, Py.split sep t = b :: segs.
Proof.
  destruct (Py.contains sep t) eqn:Ht.
  - destruct (first_sep sep t Ht) as (b & r & -> & Hb).
    exists b, (String sep r). repeat split; eauto.
    exists (Py.split sep r). now apply split_at_sep.
  - exists t, "". repeat split; auto.
    + clear Ht. induction t as [|c t IH]; simpl; congruence.
    + exists []. now apply split_no_sep.
Qed.

Lemma contains_lstrip (c : ascii) (p : ascii -> bool) (s : string) :
  Py.contains c s = false -> Py.contains c (Py.lstrip p s) = false.
Proof.
  induction s as [|d s IH]; simpl; intros H; [reflexivity|].
  apply orb_false_iff in H. destruct H as [Hd Hs].
  destruct (p d); [now apply IH | simpl; now rewrite Hd, Hs].
Qed.

Lemma contains_remove (c : ascii) (p : ascii -> bool) (s : string) :
  Py.contains c s = false -> Py.contains c (Urllib.remove p s) = false.
Proof.
  induction s as [|d s IH]; simpl; intros H; [reflexivity|].
  apply orb_false_iff in H. destruct H as [Hd Hs].
  destruct (p d); [now apply IH | simpl; now rewrite Hd, IH].
Qed.

Lemma contains_break (c : ascii) (p : ascii -> bool) (s : string) :
  Py.contains c s = false ->
  Py.contains c (fst (Urllib.break p s)) = false /\
  Py.contains c (snd (Urllib.break p s)) = false.
Proof.
  induction s as [|d s IH]; simpl; intros H; [now split|].
  apply orb_false_iff in H. destruct H as [Hd Hs].
  destruct (p d); simpl.
  - now rewrite Hd, Hs.
  - destruct (IH Hs) as [Ha Hb].
    destruct (Urllib.break p s) as [a b]; simpl in *. now rewrite Hd, Ha, Hb.
Qed.

Lemma contains_split_scheme (c : ascii) (url : string) :
  Py.contains c url = false ->
  Py.contains c (snd (Urllib.split_scheme url)) = false.
Proof.
  intros H. unfold Urllib.split_scheme.
  destruct (contains_break c (Ascii.eqb ":") url H) as [_ Hb].
  destruct (Urllib.break (Ascii.eqb ":") url) as [[|c0 pre] [|d rest]];
    simpl in *; try exact H.
  apply orb_false_iff in Hb.
  destruct (Urllib.is_alpha c0 && _); simpl; [apply Hb | exact H].
Qed.

(** Without a square bracket in the input, the bracket check of the
    authority cannot fail. *)
Lemma urlsplit_no_bracket (s : string) :
  Py.contains "[" s = false -> Py.contains "]" s = false ->
  exists r, Urllib.urlsplit s = Ok r.
Proof.
  intros Ho Hc. unfold Urllib.urlsplit.
  set (url := Urllib.remove Urllib.is_unsafe (Py.lstrip Urllib.is_c0_or_space s)).
  assert (Ho1 : Py.contains "[" url = false)
    by (apply contains_remove, contains_lstrip, Ho).
  assert (Hc1 : Py.contains "]" url = false)
    by (apply contains_remove, contains_lstrip, Hc).
  pose proof (contains_split_scheme "[" url Ho1) as Ho2.
  pose proof (contains_split_scheme "]" url Hc1) as Hc2.
  destruct (Urllib.split_scheme url) as [scheme rest]. simpl in Ho2, Hc2.
  assert (Hplain : forall u : string,
    exists r,
      rbind (Ok (EmptyString, u))
        (fun '(netloc, url0) =>
           let (url1, fragment) := Urllib.split_once "#" url0 in
           let (url2, query) := Urllib.split_once "?" url1 in
           Ok (scheme, netloc, url2, query, fragment)) = Ok r).
  { intros u. simpl. destruct (Urllib.split_once "#" u) as [u1 fr].
    destruct (Urllib.split_once "?" u1) as [u2 q]. eauto. }
  destruct rest as [|c1 rest]; [apply Hplain|].
  destruct (Ascii.ascii_dec c1 "/") as [->|Hne1].
  2:{ destruct c1 as [[] [] [] [] [] [] [] []]; try apply Hplain.
      now elim Hne1. }
  destruct rest as [|c2 rest]; [apply Hplain|].
  destruct (Ascii.ascii_dec c2 "/") as [->|Hne2].
  2:{ destruct c2 as [[] [] [] [] [] [] [] []]; try apply Hplain.
      now elim Hne2. }
  simpl in Ho2, Hc2. unfold Urllib.splitnetloc.
  destruct (contains_break "[" (fun c => Py.contains c "/?#") rest Ho2) as [Ha _].
  destruct (contains_break "]" (fun c => Py.contains c "/?#") rest Hc2) as [Hb _].
  destruct (Urllib.break _ rest) as [netloc url']. simpl in Ha, Hb.
  rewrite Ha, Hb. simpl.
  destruct (Urllib.split_once "#" url') as [u1 fr].
  destruct (Urllib.split_once "?" u1) as [u2 q]. eauto.
Qed.

Lemma urlparse_no_bracket (s : string) :
  Py.contains "[" s = false -> Py.contains "]" s = false ->
  exists parsed, Urllib.urlparse (Some s) = Ok parsed.
Proof.
  intros Ho Hc. unfold Urllib.urlparse.
  destruct (urlsplit_no_bracket s Ho Hc) as [[[[[scheme netloc] url] query] fragment] ->].
  simpl. destruct (_ && _); [destruct (Urllib.splitparams url)|]; eauto.
Qed.

Local Open Scope list_scope.

(** ** Eligibility *)

Lemma get_subfield_first (f : Field) (c : string) :
  get_subfield f c = hd_error (get_subfields f c).
Proof. unfold get_subfield. now destruct (get_subfields f c). Qed.

Lemma eligible_iff_spec (f : Field) : eligible f = true <-> eligible_spec f.
Proof.
  unfold eligible, eligible_spec, is_http_access_method, get_access_method,
    get_type, get_subfield, HTTP_ACCESS_METHOD, ACCEPTED_TYPES.
  rewrite andb_true_iff, String.eqb_eq. split.
  - intros [Hi Hq]. split; [exact Hi|].
    destruct (get_subfields f "q") as [|t rest]; simpl in Hq; [discriminate|].
    exists t, rest. split; [reflexivity|].
    rewrite !orb_true_iff, !String.eqb_eq in Hq. intuition discriminate.
  - intros [Hi (t & rest & Hq & Ht)]. split; [exact Hi|].
    rewrite Hq. simpl. rewrite !orb_true_iff, !String.eqb_eq. tauto.
Qed.

Section Properties.

Variable args : Args.
Variable marc21_xml : string -> result (list MarcRecord).
Variable requests_post : list PostRequest -> PostRequest -> post_outcome.

#[local] Set Default Proof Using "Type".

Lemma process_field_guard (f : Field) :
  process_field args requests_post f =
  if eligible f then register_and_count args requests_post f else ret tt.
Proof.
  unfold process_field, eligible.
  destruct (is_http_access_method f); [|reflexivity].
  now destruct (Py.mem (get_type f) ACCEPTED_TYPES).
Qed.

(** ** The program, equation by equation *)

Lemma register_file_eq (uri : option string) (size : option Z)
    (checksum : string) (st : State) :
  register_file args requests_post uri size checksum st =
  match strip_server_url uri with
  | Raise e => (st, Raise e)
  | Ok fid =>
      let req := request_of args (payload_of args fid size checksum) in
      match requests_post (posted st) req with
      | Response status_code content =>
          if status_code =? CREATED
          then (with_posted st req, Ok (Some true))
          else (with_error (with_posted st req)
                  (FailedWithStatus fid status_code content), Ok (Some false))
      | TransportError e =>
          (with_error (with_posted st req) (FailedDueTo fid e), Ok None)
      end
  end.
Proof.
  unfold register_file, bind, lift, post.
  destruct (strip_server_url uri) as [fid|e]; [|reflexivity]. simpl.
  destruct (requests_post _ _) as [status_code content|e]; [|reflexivity].
  now destruct (status_code =? CREATED).
Qed.

Lemma register_and_count_eq (f : Field) (st : State) :
  register_and_count args requests_post f st =
  match get_size f with
  | Raise e => (st, Raise e)
  | Ok size =>
      match get_md5_checksum f with
      | Raise e => (st, Raise e)
      | Ok checksum =>
          match register_file args requests_post (get_uri f) size checksum st with
          | (st1, Raise e) => (st1, Raise e)
          | (st1, Ok registered) =>
              if Py.truthy_bool registered then
                match size with
                | None => (st1, Raise TypeError)
                | Some n =>
                    if log_now args (total_count st1 + 1)
                    then (with_stdout (counted st1 n)
                            (RegisteredFiles (total_count st1 + 1)), Ok tt)
                    else (counted st1 n, Ok tt)
                end
              else (st1, Ok tt)
          end
      end
  end.
Proof.
  unfold register_and_count, bind, lift.
  destruct (get_size f) as [size|e]; [|reflexivity].
  destruct (get_md5_checksum f) as [checksum|e]; [|reflexivity].
  destruct (register_file _ _ _ _ _ _) as [st1 [registered|e]]; [|reflexivity].
  destruct (Py.truthy_bool registered); [|reflexivity].
  destruct size as [n|]; [|reflexivity]. simpl.
  now destruct (log_now args (total_count st1 + 1)).
Qed.

Lemma register_file_totals (uri : option string) (size : option Z)
    (checksum : string) (st : State) :
  let st1 := exec (register_file args requests_post uri size checksum) st in
  total_count st1 = total_count st /\ total_size st1 = total_size st /\
  stdout st1 = stdout st.
Proof.
  unfold exec. rewrite register_file_eq.
  destruct (strip_server_url uri) as [fid|e]; simpl; [|now repeat split].
  destruct (requests_post _ _) as [status_code content|e]; simpl;
    [|now repeat split].
  destruct (status_code =? CREATED); simpl; now repeat split.
Qed.

(** C1. A link field is judged eligible exactly when its first indicator
    is '4' and the first value of its subfield 'q' is, character for
    character, one of MP4, MKV and MOV; a field without subfield 'q' is
    not eligible; a field that is not eligible leaves the state as it is,
    so that only eligible fields give rise to a POST request. *)
Theorem eligibility_filter (f : Field) :
  (eligible f = true <-> eligible_spec f) /\
  process_field args requests_post f =
    (if eligible f then register_and_count args requests_post f else ret tt) /\
  (get_subfields f "q" = [] -> eligible f = false) /\
  (forall st, eligible f = false ->
     process_field args requests_post f st = (st, Ok tt)) /\
  (forall st,
     posted (exec (process_field args requests_post f) st) <> posted st ->
     eligible_spec f).
Proof.
  split; [apply eligible_iff_spec|].
  split; [apply process_field_guard|].
  split; [|split].
  - intros Hq. unfold eligible, get_type, get_subfield. rewrite Hq.
    apply andb_false_r.
  - intros st He. now rewrite process_field_guard, He.
  - intros st Hp. apply eligible_iff_spec.
    destruct (eligible f) eqn:He; [reflexivity|].
    exfalso. apply Hp. now rewrite process_field_guard, He.
Qed.

(** C3. Once the file id is resolved, [register_file] issues exactly one
    POST request. A response with status 201 makes it return True and log
    nothing; a response with any other status makes it log the file id,
    the status code and the body and return False; an exception of the
    transport makes it log the file id and the exception and return None,
    which is falsy: the counters of the run stay as they were. *)
Theorem register_file_outcomes (uri fid : option string) (size : option Z)
    (checksum : string) (st : State) :
  strip_server_url uri = Ok fid ->
  let req := request_of args (payload_of args fid size checksum) in
  let run := register_file args requests_post uri size checksum st in
  posted (fst run) = posted st ++ [req] /\
  match requests_post (posted st) req with
  | Response status_code content =>
      if status_code =? 201
      then snd run = Ok (Some true) /\ errors (fst run) = errors st
      else snd run = Ok (Some false) /\
           errors (fst run)
           = errors st ++ [FailedWithStatus fid status_code content]
  | TransportError e =>
      snd run = Ok None /\
      errors (fst run) = errors st ++ [FailedDueTo fid e] /\
      Py.truthy_bool None = false /\
      forall f,
        get_uri f = uri -> get_size f = Ok size ->
        get_md5_checksum f = Ok checksum ->
        let st' := exec (register_and_count args requests_post f) st in
        snd (register_and_count args requests_post f st) = Ok tt /\
        total_count st' = total_count st /\ total_size st' = total_size st
  end.
Proof.
  intros Hfid req run. subst run. rewrite register_file_eq, Hfid. fold req.
  cbv zeta.
  destruct (requests_post (posted st) req) as [status_code content|e] eqn:Hr.
  - change CREATED with 201.
    destruct (status_code =? 201); simpl; auto.
  - simpl. repeat split; auto.
    all: unfold exec; rewrite register_and_count_eq, H0, H1, H, register_file_eq,
      Hfid; fold req; cbv zeta; rewrite Hr; reflexivity.
Qed.

(** One step of the loop either leaves the counters alone or follows a
    registration that returned True. *)
Lemma process_field_totals (f : Field) (st : State) :
  let st' := exec (process_field args requests_post f) st in
  (total_count st' = total_count st /\ total_size st' = total_size st) \/
  exists n checksum,
    eligible f = true /\ get_size f = Ok (Some n) /\
    get_md5_checksum f = Ok checksum /\
    eval (register_file args requests_post (get_uri f) (Some n) checksum) st
    = Ok (Some true) /\
    total_count st' = total_count st + 1 /\
    total_size st' = total_size st + n.
Proof.
  intros st'. subst st'. unfold exec, eval. rewrite process_field_guard.
  destruct (eligible f); [|left; split; reflexivity].
  rewrite register_and_count_eq.
  destruct (get_size f) as [size|e]; [|left; split; reflexivity].
  destruct (get_md5_checksum f) as [checksum|e]; [|left; split; reflexivity].
  pose proof (register_file_totals (get_uri f) size checksum st) as Ht.
  unfold exec in Ht.
  destruct (register_file _ _ _ _ _ _) as [st1 [r|e]] eqn:Hreg; simpl in Ht;
    [|left; split; apply Ht].
  destruct r as [[|]|]; simpl; [|left; split; apply Ht|left; split; apply Ht].
  destruct size as [n|]; [|left; split; apply Ht].
  right. exists n, checksum. rewrite Hreg.
  destruct (log_now args (total_count st1 + 1)); simpl;
    repeat split; try reflexivity; lia.
Qed.

(** C2. In one step of the loop over the fields the counters change only
    if [register_file] returned True, and then by one file and by the
    declared size of the field; when [register_file] returns True for a
    field of declared size [n] the step ends normally with the counters
    raised by 1 and by [n]; when it returns False or None the step ends
    normally with both counters as they were. *)
Theorem run_totals_reflect_success (f : Field) (st : State) :
  let st' := exec (process_field args requests_post f) st in
  ((total_count st' = total_count st /\ total_size st' = total_size st) \/
   exists n checksum,
     eligible f = true /\ get_size f = Ok (Some n) /\
     get_md5_checksum f = Ok checksum /\
     eval (register_file args requests_post (get_uri f) (Some n) checksum) st
     = Ok (Some true) /\
     total_count st' = total_count st + 1 /\
     total_size st' = total_size st + n) /\
  (forall n checksum,
     eligible f = true -> get_size f = Ok (Some n) ->
     get_md5_checksum f = Ok checksum ->
     eval (register_file args requests_post (get_uri f) (Some n) checksum) st
     = Ok (Some true) ->
     eval (process_field args requests_post f) st = Ok tt /\
     total_count st' = total_count st + 1 /\
     total_size st' = total_size st + n) /\
  (forall size checksum r,
     eligible f = true -> get_size f = Ok size ->
     get_md5_checksum f = Ok checksum ->
     eval (register_file args requests_post (get_uri f) size checksum) st
     = Ok r ->
     r <> Some true ->
     eval (process_field args requests_post f) st = Ok tt /\
     total_count st' = total_count st /\ total_size st' = total_size st).
Proof.
  intros st'. subst st'. split; [apply process_field_totals|].
  unfold exec, eval. rewrite process_field_guard. split.
  - intros n checksum He Hs Hc Hreg. rewrite He, register_and_count_eq, Hs, Hc.
    pose proof (register_file_totals (get_uri f) (Some n) checksum st) as Ht.
    unfold exec, eval in Ht, Hreg.
    destruct (register_file _ _ _ _ _ _) as [st1 r]; simpl in *. subst r.
    simpl.
    destruct (log_now args (total_count st1 + 1)); simpl;
      repeat split; try reflexivity; lia.
  - intros size checksum r He Hs Hc Hreg Hr.
    rewrite He, register_and_count_eq, Hs, Hc.
    pose proof (register_file_totals (get_uri f) size checksum st) as Ht.
    unfold exec, eval in Ht, Hreg.
    destruct (register_file _ _ _ _ _ _) as [st1 r']; simpl in *. subst r'.
    destruct r as [[|]|]; simpl; [congruence| |];
      (split; [reflexivity|split; apply Ht]).
Qed.

(** ** Uncaught exceptions end the run *)

Lemma get_file_fields_record (collection_url : string) (r : MarcRecord)
    (rs : list MarcRecord) :
  marc21_xml collection_url = Ok (r :: rs) ->
  get_file_fields marc21_xml collection_url
  = Ok (Some (get_fields r ELECTRONIC_LOCATION_AND_ACCESS)).
Proof.
  intros H. unfold get_file_fields, download_and_load_marc21_record.
  now rewrite H.
Qed.

Lemma get_file_fields_absent (collection_url : string) :
  marc21_xml collection_url = Ok [] ->
  get_file_fields marc21_xml collection_url = Ok None.
Proof.
  intros H. unfold get_file_fields, download_and_load_marc21_record.
  now rewrite H.
Qed.

(** A collection without a record: the loop over its fields iterates over
    None. *)
Lemma process_collection_absent (collection_url : string) (st : State) :
  marc21_xml collection_url = Ok [] ->
  process_collection args marc21_xml requests_post collection_url st
  = (with_stdout st (ProcessingCollection collection_url), Raise TypeError).
Proof.
  intros H. unfold process_collection, bind, print, modify, lift.
  now rewrite (get_file_fields_absent _ H).
Qed.

(** A record without link fields: nothing to do, no exception. *)
Lemma process_collection_no_fields (collection_url : string) (r : MarcRecord)
    (rs : list MarcRecord) (st : State) :
  marc21_xml collection_url = Ok (r :: rs) ->
  get_fields r ELECTRONIC_LOCATION_AND_ACCESS = [] ->
  get_file_fields marc21_xml collection_url = Ok (Some []) /\
  process_collection args marc21_xml requests_post collection_url st
  = (with_stdout st (ProcessingCollection collection_url), Ok tt).
Proof.
  intros H Hf. rewrite (get_file_fields_record _ _ _ H), Hf.
  split; [reflexivity|].
  unfold process_collection, bind, print, modify, lift.
  now rewrite (get_file_fields_record _ _ _ H), Hf.
Qed.

(** An exception raised while a field is processed is the outcome of the
    whole run: the fields and collections after it are not processed and
    the totals are not printed. *)
Lemma run_reaches_abort (f : Field) (st st' : State) (e : exn) :
  run_reaches args marc21_xml requests_post f st ->
  process_field args requests_post f st = (st', Raise e) ->
  main args marc21_xml requests_post initial_state = (st', Raise e).
Proof.
  intros (urls1 & u & urls2 & r & rs & fs1 & fs2 & st0 & Hc & H1 & Hm & Hf & H2) Hp.
  unfold main. unfold bind at 1. rewrite Hc.
  rewrite (for_each_raise urls1 urls2 u _ initial_state st0 st' e H1);
    [reflexivity|].
  unfold process_collection, bind, print, modify, lift.
  rewrite (get_file_fields_record _ _ _ Hm), Hf.
  unfold exec, print, modify in H2. simpl in H2.
  now rewrite (for_each_raise fs1 fs2 f _ _ st st' e H2 Hp).
Qed.

(** C5. The checksum of a control number is its second segment between
    ';' separators: a control number without ';' raises IndexError, and a
    control number with one has the form a;b or a;b;... with no ';' in a
    and b, and gives b. The control number of the example gives its
    32-digit checksum. The IndexError is not caught: when the run reaches
    an eligible field with such a control number, it ends there with this
    exception, before any request for the field. *)
Theorem checksum_derivation (s : string) :
  (Py.contains ";" s = false -> parse_md5 (Some s) = Raise IndexError) /\
  (Py.contains ";" s = true ->
   exists a b rest,
     s = (a ++ ";" ++ b ++ rest)%string /\
     Py.contains ";" a = false /\ Py.contains ";" b = false /\
     (rest = "" \/ exists r, rest = String ";" r) /\
     parse_md5 (Some s) = Ok b) /\
  parse_md5 (Some "(OCoLC)12345;d41d8cd98f00b204e9800998ecf8427e")
  = Ok "d41d8cd98f00b204e9800998ecf8427e" /\
  (forall f st size,
     run_reaches args marc21_xml requests_post f st ->
     eligible f = true -> get_size f = Ok size ->
     get_control_number f = Some s -> Py.contains ";" s = false ->
     main args marc21_xml requests_post initial_state = (st, Raise IndexError)).
Proof.
  split; [|split; [|split]].
  - intros H. unfold parse_md5. now rewrite (split_no_sep _ _ H).
  - intros H. destruct (first_sep ";" s H) as (a & t & -> & Ha).
    destruct (first_segment ";" t) as (b & rest & -> & Hb & Hrest & segs & Hsplit).
    exists a, b, rest. repeat split; auto.
    unfold parse_md5. rewrite (split_at_sep _ _ _ Ha), Hsplit. reflexivity.
  - reflexivity.
  - intros f st size Hreach He Hs Hcn H.
    apply (run_reaches_abort f st st IndexError Hreach).
    rewrite process_field_guard, He, register_and_count_eq, Hs.
    unfold get_md5_checksum. rewrite Hcn. unfold parse_md5.
    now rewrite (split_no_sep _ _ H).
Qed.

(** C7. When the run reaches an eligible field without size subfield
    and [register_file] returns True for it, the request has been sent
    with a null size, the addition to [total_size] raises TypeError and
    the run ends with this exception, both counters as they were. *)
Theorem absent_size_is_fatal (f : Field) (st : State) (checksum : string) :
  run_reaches args marc21_xml requests_post f st ->
  eligible f = true ->
  get_subfields f "s" = [] ->
  get_md5_checksum f = Ok checksum ->
  eval (register_file args requests_post (get_uri f) None checksum) st
  = Ok (Some true) ->
  exists fid st1,
    strip_server_url (get_uri f) = Ok fid /\
    main args marc21_xml requests_post initial_state = (st1, Raise TypeError) /\
    posted st1
    = posted st ++ [request_of args (payload_of args fid None checksum)] /\
    Json.size (payload_of args fid None checksum) = None /\
    total_count st1 = total_count st /\ total_size st1 = total_size st.
Proof.
  intros Hreach He Hs Hc Hreg.
  assert (Hsize : get_size f = Ok None).
  { unfold get_size, get_subfield. now rewrite Hs. }
  unfold eval in Hreg. rewrite register_file_eq in Hreg.
  destruct (strip_server_url (get_uri f)) as [fid|e] eqn:Hfid;
    [|discriminate].
  exists fid, (with_posted st (request_of args (payload_of args fid None checksum))).
  split; [reflexivity|]. split; [|repeat split].
  apply (run_reaches_abort f st _ TypeError Hreach).
  rewrite process_field_guard, He, register_and_count_eq, Hsize, Hc,
    register_file_eq, Hfid.
  cbv zeta in Hreg |- *.
  destruct (requests_post _ _) as [status_code content|e]; [|discriminate].
  destruct (status_code =? CREATED); [reflexivity|discriminate].
Qed.

(** C10, amended. When the run reaches an eligible field that has no
    subfield 'w' and whose size is absent or parses as an integer, the
    checksum derivation is applied to None and raises AttributeError (not
    the IndexError of a control number without ';'); the run ends with
    this exception in the state it had reached, no request being sent for
    the field. *)
Theorem missing_control_number_is_fatal (f : Field) (st : State)
    (size : option Z) :
  run_reaches args marc21_xml requests_post f st ->
  eligible f = true ->
  get_subfields f "w" = [] ->
  get_size f = Ok size ->
  get_md5_checksum f = Raise AttributeError /\
  AttributeError <> IndexError /\
  process_field args requests_post f st = (st, Raise AttributeError) /\
  main args marc21_xml requests_post initial_state
  = (st, Raise AttributeError).
Proof.
  intros Hreach He Hw Hs.
  assert (Hmd5 : get_md5_checksum f = Raise AttributeError).
  { unfold get_md5_checksum, get_control_number, get_subfield. now rewrite Hw. }
  assert (Hp : process_field args requests_post f st
               = (st, Raise AttributeError)).
  { now rewrite process_field_guard, He, register_and_count_eq, Hs, Hmd5. }
  repeat split; auto; try discriminate.
  apply (run_reaches_abort f st st AttributeError Hreach Hp).
Qed.

(** ** The counters *)

Lemma process_field_count (f : Field) :
  steps count_le (process_field args requests_post f).
Proof.
  intros st. unfold count_le.
  destruct (process_field_totals f st) as [[-> _]|(n & c & _ & _ & _ & _ & -> & _)];
    lia.
Qed.

Lemma process_field_size (f : Field) :
  size_not_negative f -> steps size_le (process_field args requests_post f).
Proof.
  intros Hf st. unfold size_le.
  destruct (process_field_totals f st) as [[_ ->]|(n & c & _ & Hn & _ & _ & _ & ->)];
    [lia|].
  specialize (Hf n Hn). lia.
Qed.

Lemma count_le_refl (st : State) : count_le st st.
Proof. unfold count_le. lia. Qed.

Lemma count_le_trans (a b c : State) :
  count_le a b -> count_le b c -> count_le a c.
Proof. unfold count_le. lia. Qed.

Lemma size_le_refl (st : State) : size_le st st.
Proof. unfold size_le. lia. Qed.

Lemma size_le_trans (a b c : State) :
  size_le a b -> size_le b c -> size_le a c.
Proof. unfold size_le. lia. Qed.

Lemma print_count (o : Output) : steps count_le (print o).
Proof. intros st. unfold count_le. simpl. lia. Qed.

Lemma process_collection_count (collection_url : string) :
  steps count_le (process_collection args marc21_xml requests_post collection_url).
Proof.
  unfold process_collection.
  apply (steps_bind _ count_le_trans); [apply print_count|intros _].
  apply (steps_bind _ count_le_trans);
    [apply (steps_lift _ count_le_refl)|intros [fs|]].
  - apply (steps_for_each _ count_le_refl count_le_trans).
    intros f _. apply process_field_count.
  - apply (steps_raise _ count_le_refl).
Qed.

Lemma main_count : steps count_le (main args marc21_xml requests_post).
Proof.
  unfold main.
  apply (steps_bind _ count_le_trans).
  { apply (steps_for_each _ count_le_refl count_le_trans).
    intros u _. apply process_collection_count. }
  intros _. apply (steps_bind _ count_le_trans);
    [apply (steps_get _ count_le_refl)|intros st1].
  apply (steps_bind _ count_le_trans); [apply print_count|intros _].
  apply (steps_bind _ count_le_trans);
    [apply (steps_get _ count_le_refl)|intros st2]. apply print_count.
Qed.

(** C8, amended. Along the loop over the fields [total_count] never goes
    down, whatever the fields and the answers of the provider, and the
    count at the end of a run is at least the count at its start;
    [total_size] does not go down over fields whose size is absent or
    not negative. *)
Theorem totals_never_decrease (fs1 fs2 : list Field) (st : State) :
  let pf := process_field args requests_post in
  let s1 := exec (for_each fs1 pf) st in
  let s2 := exec (for_each (fs1 ++ fs2) pf) st in
  total_count s1 <= total_count s2 /\
  total_count st <= total_count (exec (main args marc21_xml requests_post) st) /\
  (Forall size_not_negative fs2 -> total_size s1 <= total_size s2).
Proof.
  intros pf s1 s2. subst s1 s2. unfold exec at 1 2 4 5.
  rewrite for_each_app.
  split; [|split].
  - destruct (for_each fs1 pf st) as [st1 [[]|e]]; simpl; [|lia].
    apply (steps_for_each _ count_le_refl count_le_trans).
    intros f _. apply process_field_count.
  - apply main_count.
  - intros Hfs.
    destruct (for_each fs1 pf st) as [st1 [[]|e]]; simpl; [|lia].
    apply (steps_for_each _ size_le_refl size_le_trans).
    intros f Hf. apply process_field_size.
    rewrite Forall_forall in Hfs. now apply Hfs.
Qed.

(** ** Progress lines *)

Lemma progress_counts_app (a b : list Output) :
  progress_counts (a ++ b) = progress_counts a ++ progress_counts b.
Proof.
  induction a as [|o a IH]; simpl; [reflexivity|].
  destruct o; simpl; now rewrite IH.
Qed.

Lemma counts_upto_succ (c : Z) :
  0 <= c -> counts_upto (c + 1) = counts_upto c ++ [c + 1].
Proof.
  intros Hc. unfold counts_upto.
  replace (Z.to_nat (c + 1)) with (S (Z.to_nat c)) by lia.
  rewrite seq_S, map_app. simpl. do 2 f_equal. lia.
Qed.

Lemma counts_upto_positive (n k : Z) : In k (counts_upto n) -> 0 < k.
Proof.
  unfold counts_upto. rewrite in_map_iff. intros (i & <- & Hi).
  apply in_seq in Hi. lia.
Qed.

Lemma filter_all {A} (p : A -> bool) (l : list A) :
  (forall x, In x l -> p x = true) -> filter p l = l.
Proof.
  induction l as [|x l IH]; simpl; intros H; [reflexivity|].
  rewrite (H x (or_introl eq_refl)), IH; auto.
Qed.

Lemma filter_none {A} (p : A -> bool) (l : list A) :
  (forall x, p x = false) -> filter p l = [].
Proof.
  intros H. induction l as [|x l IH]; simpl; [reflexivity|]. now rewrite H.
Qed.

(** A line is due at count [k] exactly when a frequency is configured and
    [k] is a positive multiple of it. *)
Lemma log_now_iff (k : Z) :
  log_now args k = true <->
  (exists N, logging_freq args = Some N /\ (N | k)) /\ 0 < k.
Proof.
  unfold log_now. destruct (logging_freq args) as [N|].
  - simpl. destruct (N =? 0) eqn:HN; simpl.
    + apply Z.eqb_eq in HN. subst N. split; [discriminate|].
      intros [(N & HNe & Hd) Hk]. injection HNe as <-.
      apply Z.divide_0_l in Hd. lia.
    + apply Z.eqb_neq in HN. rewrite andb_true_iff, Z.eqb_eq, Z.gtb_lt.
      rewrite (Z.mod_divide k N HN). split.
      * intros [Hd Hk]. split; [exists N; auto | exact Hk].
      * intros [(N' & HNe & Hd) Hk]. injection HNe as <-. auto.
  - split; [discriminate|]. intros [(N & HNe & _) _]. discriminate.
Qed.

(** What one step of the loop prints. *)
Lemma process_field_output (f : Field) (st : State) :
  let st' := exec (process_field args requests_post f) st in
  stdout st'
  = stdout st ++
    (if (total_count st' =? total_count st + 1) && log_now args (total_count st')
     then [RegisteredFiles (total_count st')]
     else []).
Proof.
  intros st'. subst st'. unfold exec. rewrite process_field_guard.
  assert (Hsame : forall s,
    total_count s = total_count st -> stdout s = stdout st ->
    stdout s
    = stdout st ++
      (if (total_count s =? total_count st + 1) && log_now args (total_count s)
       then [RegisteredFiles (total_count s)] else [])).
  { intros s Hc Ho. rewrite Hc.
    replace (total_count st =? total_count st + 1) with false
      by (symmetry; apply Z.eqb_neq; lia).
    simpl. now rewrite app_nil_r. }
  destruct (eligible f); [|now apply Hsame].
  rewrite register_and_count_eq.
  destruct (get_size f) as [size|e]; [|now apply Hsame].
  destruct (get_md5_checksum f) as [checksum|e]; [|now apply Hsame].
  destruct (register_file_totals (get_uri f) size checksum st) as (Hc & _ & Ho).
  unfold exec in Hc, Ho.
  destruct (register_file _ _ _ _ _ _) as [st1 [r|e]]; simpl in Hc, Ho;
    [|now apply Hsame].
  destruct (Py.truthy_bool r); [|now apply Hsame].
  destruct size as [n|]; [|now apply Hsame].
  destruct (log_now args (total_count st1 + 1)) eqn:Hl; simpl;
    rewrite Hc, Z.eqb_refl; rewrite <- Hc, Hl; simpl.
  - now rewrite Ho.
  - now rewrite app_nil_r.
Qed.

Lemma keeps_refl (I : State -> Prop) (st : State) : keeps I st st.
Proof. intros H. exact H. Qed.

Lemma keeps_trans (I : State -> Prop) (a b c : State) :
  keeps I a b -> keeps I b c -> keeps I a c.
Proof. unfold keeps. auto. Qed.

Lemma process_field_inv (f : Field) :
  steps (keeps (progress_inv args)) (process_field args requests_post f).
Proof.
  intros st [H0 Hp]. pose proof (process_field_output f st) as Ho.
  cbv zeta in Ho. unfold progress_inv.
  destruct (process_field_totals f st) as [[Hc _]|(n & c & _ & _ & _ & _ & Hc & _)];
    rewrite Hc in Ho |- *.
  - replace (total_count st =? total_count st + 1) with false in Ho
      by (symmetry; apply Z.eqb_neq; lia).
    simpl in Ho. rewrite app_nil_r in Ho. rewrite Ho. auto.
  - rewrite Z.eqb_refl in Ho. simpl in Ho. split; [lia|].
    rewrite Ho, progress_counts_app, Hp, (counts_upto_succ _ H0), filter_app.
    simpl. now destruct (log_now args (total_count st + 1)).
Qed.

Lemma print_inv (o : Output) :
  progress_counts [o] = [] ->
  steps (keeps (progress_inv args)) (print o).
Proof.
  intros Ho st [H0 Hp]. unfold progress_inv. simpl.
  split; [exact H0|]. now rewrite progress_counts_app, Ho, app_nil_r.
Qed.

Lemma main_inv :
  steps (keeps (progress_inv args)) (main args marc21_xml requests_post).
Proof.
  pose proof (keeps_refl (progress_inv args)) as Hr.
  pose proof (keeps_trans (progress_inv args)) as Ht.
  unfold main. apply (steps_bind _ Ht).
  { apply (steps_for_each _ Hr Ht). intros u _. unfold process_collection.
    apply (steps_bind _ Ht); [now apply print_inv|intros _].
    apply (steps_bind _ Ht); [apply (steps_lift _ Hr)|intros [fs|]].
    - apply (steps_for_each _ Hr Ht). intros f _. apply process_field_inv.
    - apply (steps_raise _ Hr). }
  intros _. apply (steps_bind _ Ht); [apply (steps_get _ Hr)|intros st1].
  apply (steps_bind _ Ht); [now apply print_inv|intros _].
  apply (steps_bind _ Ht); [apply (steps_get _ Hr)|intros st2].
  now apply print_inv.
Qed.

(** C9. A progress line is due at a count exactly when a frequency N is
    configured and the count is a positive multiple of N. A step of the
    loop prints the line, with the new count, exactly when it has raised
    [total_count] by one to a count at which a line is due, and prints
    nothing otherwise. Hence the progress lines of a run show, in order,
    the multiples of N among 1, ..., [total_count]: every count with
    N = 1, and none when no frequency is configured. *)
Theorem progress_lines_every_nth :
  let final := exec (main args marc21_xml requests_post) initial_state in
  (forall k,
     log_now args k = true <->
     (exists N, logging_freq args = Some N /\ (N | k)) /\ 0 < k) /\
  (forall f st,
     let st' := exec (process_field args requests_post f) st in
     stdout st'
     = stdout st ++
       (if (total_count st' =? total_count st + 1)
           && log_now args (total_count st')
        then [RegisteredFiles (total_count st')]
        else [])) /\
  progress_counts (stdout final)
  = filter (log_now args) (counts_upto (total_count final)) /\
  (logging_freq args = Some 1 ->
   progress_counts (stdout final) = counts_upto (total_count final)) /\
  (logging_freq args = None -> progress_counts (stdout final) = []).
Proof.
  intros final.
  assert (Hinv : progress_inv args final).
  { apply main_inv. split; [simpl; lia|reflexivity]. }
  destruct Hinv as [_ Hp].
  split; [apply log_now_iff|]. split; [apply process_field_output|].
  split; [exact Hp|]. split.
  - intros H1. rewrite Hp. apply filter_all. intros k Hk.
    apply log_now_iff. split; [|now apply counts_upto_positive in Hk].
    exists 1. split; [exact H1|apply Z.divide_1_l].
  - intros Hn. rewrite Hp. apply filter_none. intros k.
    unfold log_now. now rewrite Hn.
Qed.

End Properties.

(** ** The resource locator *)

(** C4, amended. [strip_server_url] returns whenever [urlparse] does: the
    parsed path when the parsed scheme is not empty, the input itself
    otherwise; when [urlparse] rejects the input its exception comes out
    uncaught. [urlparse] accepts every ASCII string without a square
    bracket. *)
Theorem strip_server_url_spec (s : string) :
  match Urllib.urlparse (Some s) with
  | Ok parsed =>
      strip_server_url (Some s)
      = Ok (Some (if String.eqb (Urllib.scheme parsed) ""
                  then s else Urllib.path parsed))
  | Raise e => strip_server_url (Some s) = Raise e
  end /\
  (Urllib.all_chars Py.is_ascii s = true ->
   Py.contains "[" s = false -> Py.contains "]" s = false ->
   exists r, strip_server_url (Some s) = Ok (Some r)).
Proof.
  unfold strip_server_url. split.
  - destruct (Urllib.urlparse (Some s)) as [parsed|e]; simpl; [|reflexivity].
    now destruct (Urllib.scheme parsed).
  - intros _ Ho Hc. destruct (urlparse_no_bracket s Ho Hc) as [parsed ->].
    simpl. destruct (Urllib.scheme parsed); eauto.
Qed.

Lemma strip_server_url_spec_witness :
  strip_server_url (Some "https://host/a/b.mp4") = Ok (Some "/a/b.mp4") /\
  strip_server_url (Some "/a/b.mp4") = Ok (Some "/a/b.mp4") /\
  exists r, strip_server_url (Some "https://host/a/b.mp4") = Ok (Some r).
Proof.
  split; [|split].
  - exact (proj1 (strip_server_url_spec "https://host/a/b.mp4")).
  - exact (proj1 (strip_server_url_spec "/a/b.mp4")).
  - exact (proj2 (strip_server_url_spec "https://host/a/b.mp4")
             eq_refl eq_refl eq_refl).
Defined.

(** C4 as stated fails: an opening bracket without its closing one in the
    authority makes [urlparse], and so [strip_server_url], raise
    ValueError, with a scheme and without one. *)
Lemma strip_server_url_raises :
  strip_server_url (Some "http://[") = Raise ValueError /\
  strip_server_url (Some "//[") = Raise ValueError.
Proof. split; reflexivity. Qed.

(** ** Collections without a record *)

(** C6 fails for a collection without a record: [get_file_fields] returns
    None, not an empty sequence, and the loop over it raises TypeError;
    the run ends there and the second collection is never processed. *)
Theorem absent_record_aborts_run :
  let a := Sample.args None ["https://catalog.example/1.xml";
                             "https://catalog.example/2.xml"] in
  get_file_fields Sample.no_record "https://catalog.example/1.xml" = Ok None /\
  main a Sample.no_record (Sample.answers 201) initial_state
  = (with_stdout initial_state
       (ProcessingCollection "https://catalog.example/1.xml"),
     Raise TypeError).
Proof. split; reflexivity. Qed.

(** A record without link fields is tolerated: both collections are
    processed and the totals printed. *)
Example record_without_link_fields :
  let a := Sample.args None ["https://catalog.example/1.xml";
                             "https://catalog.example/2.xml"] in
  let run := main a (Sample.one_record [Sample.title]) (Sample.answers 201)
               initial_state in
  get_file_fields (Sample.one_record [Sample.title])
    "https://catalog.example/1.xml" = Ok (Some []) /\
  snd run = Ok tt /\
  stdout (fst run)
  = [ProcessingCollection "https://catalog.example/1.xml";
     ProcessingCollection "https://catalog.example/2.xml";
     TotalCount 0; TotalSize 0].
Proof. repeat split; reflexivity. Qed.

(** ** Instances on the sample data *)

Lemma sample_reached (freq : option Z) (f : Field)
    (requests_post : list PostRequest -> PostRequest -> post_outcome) :
  tag f = "856" ->
  run_reaches (Sample.args freq ["https://catalog.example/1.xml"])
    (Sample.one_record [f]) requests_post f
    (with_stdout initial_state
       (ProcessingCollection "https://catalog.example/1.xml")).
Proof.
  intros Ht.
  exists [], "https://catalog.example/1.xml", [], {| fields := [f] |}, [], [],
    [], initial_state.
  repeat split; try reflexivity.
  unfold get_fields. simpl. now rewrite Ht.
Defined.

Lemma eligibility_filter_witness :
  eligible_spec Sample.mp4 /\ eligible Sample.no_type = false /\
  process_field (Sample.args None []) (Sample.answers 201) Sample.ftp
    initial_state = (initial_state, Ok tt).
Proof.
  destruct (eligibility_filter (Sample.args None []) (Sample.answers 201)
              Sample.mp4) as [[H _] _].
  destruct (eligibility_filter (Sample.args None []) (Sample.answers 201)
              Sample.no_type) as (_ & _ & Hq & _).
  destruct (eligibility_filter (Sample.args None []) (Sample.answers 201)
              Sample.ftp) as (_ & _ & _ & Hn & _).
  split; [apply H; reflexivity|].
  split; [apply Hq; reflexivity|apply Hn; reflexivity].
Defined.

Lemma register_file_outcomes_witness :
  let run := register_file (Sample.args None []) (Sample.answers 403)
               (Some "https://host/a/b.mp4") (Some 1000) "d41d" initial_state in
  snd run = Ok (Some false) /\
  errors (fst run) = [FailedWithStatus (Some "/a/b.mp4") 403 ""].
Proof.
  exact (proj2 (register_file_outcomes (Sample.args None [])
                  (Sample.answers 403) (Some "https://host/a/b.mp4")
                  (Some "/a/b.mp4") (Some 1000) "d41d" initial_state eq_refl)).
Defined.

Lemma run_totals_reflect_success_witness :
  let a := Sample.args None [] in
  let ok := exec (process_field a (Sample.answers 201) Sample.mp4) initial_state in
  let ko := exec (process_field a (Sample.answers 500) Sample.mp4) initial_state in
  (total_count ok = 1 /\ total_size ok = 1000) /\
  (total_count ko = 0 /\ total_size ko = 0).
Proof.
  split.
  - exact (proj2 (proj1 (proj2 (run_totals_reflect_success
             (Sample.args None []) (Sample.answers 201) Sample.mp4 initial_state))
             1000 "d41d8cd98f00b204e9800998ecf8427e"
             eq_refl eq_refl eq_refl eq_refl)).
  - refine (proj2 (proj2 (proj2 (run_totals_reflect_success
             (Sample.args None []) (Sample.answers 500) Sample.mp4 initial_state))
             (Some 1000) "d41d8cd98f00b204e9800998ecf8427e" (Some false)
             eq_refl eq_refl eq_refl eq_refl _)).
    discriminate.
Defined.

Lemma checksum_derivation_witness :
  parse_md5 (Some "(OCoLC)12345") = Raise IndexError /\
  (exists a b rest,
     Sample.control_number = (a ++ ";" ++ b ++ rest)%string /\
     parse_md5 (Some Sample.control_number) = Ok b) /\
  snd (main (Sample.args None ["https://catalog.example/1.xml"])
         (Sample.one_record [Sample.no_separator]) (Sample.answers 201)
         initial_state) = Raise IndexError.
Proof.
  split; [|split].
  - exact (proj1 (checksum_derivation (Sample.args None [])
                    Sample.no_record (Sample.answers 201) "(OCoLC)12345")
             eq_refl).
  - destruct (proj1 (proj2 (checksum_derivation (Sample.args None [])
                    Sample.no_record (Sample.answers 201) Sample.control_number))
                eq_refl) as (a & b & rest & Hs & _ & _ & _ & Hb).
    exists a, b, rest. split; [exact Hs|exact Hb].
  - rewrite (proj2 (proj2 (proj2 (checksum_derivation
               (Sample.args None ["https://catalog.example/1.xml"])
               (Sample.one_record [Sample.no_separator]) (Sample.answers 201)
               "(OCoLC)12345")))
               Sample.no_separator _ (Some 7)
               (sample_reached None Sample.no_separator (Sample.answers 201)
                  eq_refl)
               eq_refl eq_refl eq_refl eq_refl).
    reflexivity.
Defined.

Lemma absent_size_is_fatal_witness :
  let run := main (Sample.args None ["https://catalog.example/1.xml"])
               (Sample.one_record [Sample.no_size]) (Sample.answers 201)
               initial_state in
  snd run = Raise TypeError /\
  map (fun r => Json.size (json r)) (posted (fst run)) = [None] /\
  total_count (fst run) = 0 /\ total_size (fst run) = 0.
Proof.
  destruct (absent_size_is_fatal
              (Sample.args None ["https://catalog.example/1.xml"])
              (Sample.one_record [Sample.no_size]) (Sample.answers 201)
              Sample.no_size _ "0"
              (sample_reached None Sample.no_size (Sample.answers 201) eq_refl)
              eq_refl eq_refl eq_refl eq_refl)
    as (fid & st1 & _ & Hmain & Hposted & _ & Hc & Hs).
  cbv zeta. rewrite Hmain. simpl fst. simpl snd. rewrite Hposted, Hc, Hs.
  repeat split.
Defined.

Lemma missing_control_number_is_fatal_witness :
  main (Sample.args None ["https://catalog.example/1.xml"])
    (Sample.one_record [Sample.no_control_number]) (Sample.answers 201)
    initial_state
  = (with_stdout initial_state
       (ProcessingCollection "https://catalog.example/1.xml"),
     Raise AttributeError).
Proof.
  exact (proj2 (proj2 (proj2 (missing_control_number_is_fatal
           (Sample.args None ["https://catalog.example/1.xml"])
           (Sample.one_record [Sample.no_control_number]) (Sample.answers 201)
           Sample.no_control_number _ (Some 7)
           (sample_reached None Sample.no_control_number (Sample.answers 201)
              eq_refl)
           eq_refl eq_refl eq_refl)))).
Defined.

(** C10 as stated fails: for an eligible field without subfield 'w' whose
    size is not a number, [int] raises ValueError before the checksum
    derivation is reached. *)
Lemma bad_size_precedes_missing_control_number :
  eligible Sample.no_control_number_bad_size = true /\
  get_subfields Sample.no_control_number_bad_size "w" = [] /\
  main (Sample.args None ["https://catalog.example/1.xml"])
    (Sample.one_record [Sample.no_control_number_bad_size])
    (Sample.answers 201) initial_state
  = (with_stdout initial_state
       (ProcessingCollection "https://catalog.example/1.xml"),
     Raise ValueError).
Proof. repeat split. Qed.

Lemma sample_sizes_not_negative :
  Forall size_not_negative [Sample.mp4; Sample.mov].
Proof.
  repeat constructor; intros n H; vm_compute in H; injection H as <-;
    discriminate.
Defined.

Lemma totals_never_decrease_witness :
  let pf := process_field (Sample.args None []) (Sample.answers 201) in
  let s1 := exec (for_each [Sample.ftp] pf) initial_state in
  let s2 := exec (for_each [Sample.ftp; Sample.mp4; Sample.mov] pf)
              initial_state in
  total_count s1 <= total_count s2 /\ total_size s1 <= total_size s2.
Proof.
  destruct (totals_never_decrease (Sample.args None []) Sample.no_record
              (Sample.answers 201) [Sample.ftp] [Sample.mp4; Sample.mov]
              initial_state) as (Hc & _ & Hs).
  split; [exact Hc|exact (Hs sample_sizes_not_negative)].
Defined.

(** C8 as stated fails: a size subfield "-5" parses to -5, and a
    successful registration of the field takes [total_size] from 0 to
    -5. *)
Lemma negative_size_lowers_total_size :
  let run := main (Sample.args None ["https://catalog.example/1.xml"])
               (Sample.one_record [Sample.negative_size]) (Sample.answers 201)
               initial_state in
  get_size Sample.negative_size = Ok (Some (-5)) /\
  snd run = Ok tt /\ total_count (fst run) = 1 /\
  total_size (fst run) = -5 /\
  total_size (fst run) < total_size initial_state.
Proof. repeat split. Qed.

Lemma progress_lines_every_nth_witness :
  let a := Sample.args (Some 1) ["https://catalog.example/1.xml"] in
  let final := exec (main a (Sample.one_record [Sample.mp4; Sample.mov])
                       (Sample.answers 201)) initial_state in
  progress_counts (stdout final) = [1; 2].
Proof.
  exact (proj1 (proj2 (proj2 (proj2 (progress_lines_every_nth
           (Sample.args (Some 1) ["https://catalog.example/1.xml"])
           (Sample.one_record [Sample.mp4; Sample.mov])
           (Sample.answers 201))))) eq_refl).
Defined.

(** With a logging frequency of 1 and two successful registrations: two
    progress lines, showing 1 and 2. *)
Example frequency_one_scenario :
  let a := Sample.args (Some 1) ["https://catalog.example/1.xml"] in
  let run := main a (Sample.one_record [Sample.mp4; Sample.mov])
               (Sample.answers 201) initial_state in
  snd run = Ok tt /\
  map render (stdout (fst run))
  = ["Processing collection https://catalog.example/1.xml";
     "Registered 1 files";
     "Registered 2 files";
     String (ascii_of_nat 10) "Total registered files count: 2";
     "Total size: 1500"].
Proof. vm_compute. split; reflexivity. Qed.

(** Every other frequency: 2 shows the second file only, 0 and None show
    nothing, -1 shows every file. *)
Example other_frequencies :
  let out freq :=
    progress_counts (stdout (exec
      (main (Sample.args freq ["https://catalog.example/1.xml"])
         (Sample.one_record [Sample.mp4; Sample.mov; Sample.mp4])
         (Sample.answers 201)) initial_state)) in
  out (Some 2) = [2] /\ out (Some 0) = [] /\ out None = [] /\
  out (Some (-1)) = [1; 2; 3] /\ out (Some 3) = [3].
Proof. vm_compute. repeat split; reflexivity. Qed.

(** Refused or unreachable: the run goes on, nothing is counted, each
    failure is logged. *)
Example failure_scenarios :
  let a := Sample.args (Some 1) ["https://catalog.example/1.xml"] in
  let run post := main a (Sample.one_record [Sample.mp4; Sample.mov]) post
                    initial_state in
  snd (run (Sample.answers 403)) = Ok tt /\
  total_count (fst (run (Sample.answers 403))) = 0 /\
  total_size (fst (run (Sample.answers 403))) = 0 /\
  errors (fst (run (Sample.answers 403)))
  = [FailedWithStatus (Some "/a/b.mp4") 403 "";
     FailedWithStatus (Some "/a/c.mov") 403 ""] /\
  snd (run Sample.unreachable) = Ok tt /\
  total_count (fst (run Sample.unreachable)) = 0 /\
  total_size (fst (run Sample.unreachable)) = 0 /\
  errors (fst (run Sample.unreachable))
  = [FailedDueTo (Some "/a/b.mp4") "connection refused";
     FailedDueTo (Some "/a/c.mov") "connection refused"] /\
  length (posted (fst (run Sample.unreachable))) = 2%nat.
Proof. vm_compute. repeat split; reflexivity. Qed.

(** * Further properties *)

(** ** Field accessors *)

Lemma first_value_lookup (c : string) (sfs : list Subfield) :
  match map value (filter (fun sf => String.eqb (code sf) c) sfs) with
  | [] => forall sf, In sf sfs -> code sf <> c
  | v :: _ =>
      exists pre post,
        sfs = pre ++ {| code := c; value := v |} :: post /\
        forall sf, In sf pre -> code sf <> c
  end.
Proof.
  induction sfs as [|[c0 v0] sfs IH]; simpl.
  - intros sf [].
  - destruct (String.eqb c0 c) eqn:Hc; simpl.
    + apply String.eqb_eq in Hc. subst c0.
      exists [], sfs. split; [reflexivity|]. intros sf [].
    + apply String.eqb_neq in Hc.
      destruct (map value (filter _ sfs)) as [|v vs].
      * intros sf [<-|Hin]; [exact Hc|now apply IH].
      * destruct IH as (pre & post & -> & Hpre).
        exists ({| code := c0; value := v0 |} :: pre), post.
        split; [reflexivity|]. intros sf [<-|Hin]; [exact Hc|now apply Hpre].
Qed.

(** [get_subfield] is a lookup of the first subfield with the given code:
    it is None exactly when no subfield has the code, and it is [v]
    exactly when the subfields are [pre], then the code with value [v],
    then anything, no subfield of [pre] having the code. Later values of
    a repeated subfield are never read. *)
Theorem get_subfield_lookup (f : Field) (c : string) :
  (get_subfield f c = None <->
   forall sf, In sf (subfields f) -> code sf <> c) /\
  (forall v,
     get_subfield f c = Some v <->
     exists pre post,
       subfields f = pre ++ {| code := c; value := v |} :: post /\
       forall sf, In sf pre -> code sf <> c).
Proof.
  unfold get_subfield, get_subfields.
  pose proof (first_value_lookup c (subfields f)) as H.
  destruct (map value (filter _ (subfields f))) as [|v0 vs] eqn:Hm.
  - split.
    + split; [intros _; exact H|reflexivity].
    + intros v. split; [discriminate|].
      intros (pre & post & Hs & _). exfalso.
      apply (H {| code := c; value := v |}); [|reflexivity].
      rewrite Hs. apply in_or_app. right. now left.
  - destruct H as (pre & post & Hs & Hpre). split.
    + split; [discriminate|]. intros Hno. exfalso.
      apply (Hno {| code := c; value := v0 |}); [|reflexivity].
      rewrite Hs. apply in_or_app. right. now left.
    + intros v. split.
      * intros Hv. injection Hv as <-. now exists pre, post.
      * intros (pre' & post' & Hs' & Hpre'). f_equal.
        rewrite Hs' in Hm. rewrite filter_app, map_app in Hm. simpl in Hm.
        rewrite String.eqb_refl in Hm. simpl in Hm.
        assert (Hnil : filter (fun sf => String.eqb (code sf) c) pre' = []).
        { clear Hm Hs'. induction pre' as [|sf pre' IH]; simpl; [reflexivity|].
          destruct (String.eqb (code sf) c) eqn:Hc.
          - apply String.eqb_eq in Hc.
            now elim (Hpre' sf (or_introl eq_refl)).
          - apply IH. intros sf' Hin. apply Hpre'. now right. }
        rewrite Hnil in Hm. simpl in Hm. now injection Hm.
Qed.

Lemma get_subfield_lookup_witness :
  get_subfield Sample.no_type "q" = None /\
  get_subfield
    (Sample.link "4" [Sample.sf "q" "MP4"; Sample.sf "q" "PDF"]) "q"
  = Some "MP4".
Proof.
  split.
  - apply (proj1 (get_subfield_lookup Sample.no_type "q")).
    intros sf Hin. simpl in Hin.
    destruct Hin as [<-|[<-|[<-|[]]]]; discriminate.
  - apply (proj2 (get_subfield_lookup
             (Sample.link "4" [Sample.sf "q" "MP4"; Sample.sf "q" "PDF"]) "q")).
    exists [], [Sample.sf "q" "PDF"]. split; [reflexivity|]. intros sf [].
Defined.

(** ** Failures of the collection fetch and of the size accessor *)

Lemma for_each_ext {A} (l : list A) (b1 b2 : A -> M unit) (st : State) :
  (forall x st', b1 x st' = b2 x st') ->
  for_each l b1 st = for_each l b2 st.
Proof.
  intros H. revert st. induction l as [|x l IH]; intros st; simpl;
    [reflexivity|].
  unfold bind. rewrite H. destruct (b2 x st) as [st1 [u|e]]; auto.
Qed.

Section Failures.

Variable args : Args.
Variable marc21_xml : string -> result (list MarcRecord).
Variable requests_post : list PostRequest -> PostRequest -> post_outcome.

#[local] Set Default Proof Using "Type".

(** An exception of [urlopen] or of the XML parser is not caught: the
    run ends with it right after the line announcing the collection, the
    later collections are not fetched and no summary is printed. *)
Theorem fetch_failure_is_fatal (urls1 urls2 : list string)
    (collection_url : string) (st0 : State) (e : exn) :
  collections args = urls1 ++ collection_url :: urls2 ->
  for_each urls1 (process_collection args marc21_xml requests_post)
    initial_state = (st0, Ok tt) ->
  marc21_xml collection_url = Raise e ->
  main args marc21_xml requests_post initial_state
  = (with_stdout st0 (ProcessingCollection collection_url), Raise e).
Proof.
  intros Hc H1 Hm. unfold main. unfold bind at 1. rewrite Hc.
  rewrite (for_each_raise urls1 urls2 collection_url _ initial_state st0
             (with_stdout st0 (ProcessingCollection collection_url)) e H1);
    [reflexivity|].
  unfold process_collection, bind, print, modify, lift, get_file_fields,
    download_and_load_marc21_record.
  now rewrite Hm.
Qed.

(** A size subfield whose first value is not empty and is refused by
    [int] ends the run with ValueError when the run reaches the field:
    the state is the one reached, so no request is sent for the field. *)
Theorem unreadable_size_is_fatal (f : Field) (st : State) (s : string)
    (rest : list string) :
  run_reaches args marc21_xml requests_post f st ->
  eligible f = true ->
  get_subfields f "s" = s :: rest ->
  s <> "" ->
  Py.int s = Raise ValueError ->
  get_size f = Raise ValueError /\
  main args marc21_xml requests_post initial_state = (st, Raise ValueError).
Proof.
  intros Hreach He Hs Hne Hint.
  assert (Hsize : get_size f = Raise ValueError).
  { unfold get_size, get_subfield. rewrite Hs.
    destruct s as [|c s']; [now elim Hne|]. simpl Py.truthy_str. cbv iota.
    now rewrite Hint. }
  split; [exact Hsize|].
  apply (run_reaches_abort args marc21_xml requests_post f st st ValueError Hreach).
  now rewrite process_field_guard, He, register_and_count_eq, Hsize.
Qed.

End Failures.

(** Only the first record of a collection is read: two worlds that give
    the same first record (or the same exception) for every collection
    give the same run, whatever the records after the first. *)
Theorem only_first_record_is_read (args : Args)
    (m1 m2 : string -> result (list MarcRecord))
    (requests_post : list PostRequest -> PostRequest -> post_outcome)
    (st : State) :
  same_first_record m1 m2 ->
  main args m1 requests_post st = main args m2 requests_post st.
Proof.
  intros Hsame.
  assert (Hd : forall u,
    download_and_load_marc21_record m1 u = download_and_load_marc21_record m2 u).
  { intros u. unfold download_and_load_marc21_record. specialize (Hsame u).
    destruct (m1 u) as [[|r1 rs1]|e1], (m2 u) as [[|r2 rs2]|e2]; simpl in *;
      try discriminate; try contradiction; congruence. }
  unfold main, bind.
  rewrite (for_each_ext (collections args)
             (process_collection args m1 requests_post)
             (process_collection args m2 requests_post)); [reflexivity|].
  intros u st'. unfold process_collection, bind, lift, get_file_fields.
  now rewrite Hd.
Qed.

Lemma fetch_failure_is_fatal_witness :
  main (Sample.args None ["https://catalog.example/1.xml"])
    (fun _ => Raise URLError) (Sample.answers 201) initial_state
  = (with_stdout initial_state
       (ProcessingCollection "https://catalog.example/1.xml"),
     Raise URLError).
Proof.
  exact (fetch_failure_is_fatal
           (Sample.args None ["https://catalog.example/1.xml"])
           (fun _ => Raise URLError) (Sample.answers 201)
           [] [] "https://catalog.example/1.xml" initial_state URLError
           eq_refl eq_refl eq_refl).
Defined.

Lemma unreadable_size_is_fatal_witness :
  snd (main (Sample.args None ["https://catalog.example/1.xml"])
         (Sample.one_record [Sample.no_control_number_bad_size])
         (Sample.answers 201) initial_state) = Raise ValueError.
Proof.
  rewrite (proj2 (unreadable_size_is_fatal
             (Sample.args None ["https://catalog.example/1.xml"])
             (Sample.one_record [Sample.no_control_number_bad_size])
             (Sample.answers 201) Sample.no_control_number_bad_size _ "abc" []
             (sample_reached None Sample.no_control_number_bad_size
                (Sample.answers 201) eq_refl)
             eq_refl eq_refl ltac:(discriminate) eq_refl)).
  reflexivity.
Defined.

Lemma only_first_record_is_read_witness :
  main (Sample.args None ["https://catalog.example/1.xml"])
    (fun _ => Ok [{| fields := [Sample.mp4] |}; {| fields := [Sample.mov] |}])
    (Sample.answers 201) initial_state
  = main (Sample.args None ["https://catalog.example/1.xml"])
      (Sample.one_record [Sample.mp4]) (Sample.answers 201) initial_state.
Proof.
  apply only_first_record_is_read. intros u. reflexivity.
Defined.

(** ** Requests *)

Section OutcomeRel.

Variables N E : State -> State -> Prop.
Hypothesis N_refl : forall st, N st st.
Hypothesis E_refl : forall st, E st st.
Hypothesis N_trans : forall a b c, N a b -> N b c -> N a c.
Hypothesis N_E : forall a b c, N a b -> E b c -> E a c.

Lemma outcome_ret {A} (a : A) : outcome_rel N E (ret a).
Proof. intros st. apply N_refl. Qed.

Lemma outcome_raise {A} (e : exn) : outcome_rel N E (@raise A e).
Proof. intros st. apply E_refl. Qed.

Lemma outcome_lift {A} (r : result A) : outcome_rel N E (lift r).
Proof. intros st. unfold lift. destruct r; [apply N_refl|apply E_refl]. Qed.

Lemma outcome_get : outcome_rel N E get.
Proof. intros st. apply N_refl. Qed.

Lemma outcome_bind {A B} (m : M A) (k : A -> M B) :
  outcome_rel N E m -> (forall a, outcome_rel N E (k a)) ->
  outcome_rel N E (bind m k).
Proof.
  intros Hm Hk st. unfold bind. specialize (Hm st).
  destruct (m st) as [st1 [a|e]]; [|exact Hm].
  specialize (Hk a st1). destruct (k a st1) as [st2 [b|e]].
  - eapply N_trans; eassumption.
  - eapply N_E; eassumption.
Qed.

Lemma outcome_for_each {A} (l : list A) (body : A -> M unit) :
  (forall x, In x l -> outcome_rel N E (body x)) ->
  outcome_rel N E (for_each l body).
Proof.
  induction l as [|x l IH]; intros H; simpl.
  - apply outcome_ret.
  - apply outcome_bind.
    + apply H. now left.
    + intros _. apply IH. intros y Hy. apply H. now right.
Qed.

End OutcomeRel.

Section Requests.

Variable args : Args.
Variable marc21_xml : string -> result (list MarcRecord).
Variable requests_post : list PostRequest -> PostRequest -> post_outcome.

#[local] Set Default Proof Using "Type".

Lemma request_of_from_args (fid : option string) (size : option Z)
    (checksum : string) :
  request_from_args args (request_of args (payload_of args fid size checksum)).
Proof. repeat split. Qed.

(** What a step does to the list of requests: nothing, with an exception
    unless the field is not eligible, or one more request, the one for
    the field. *)
Lemma process_field_request (f : Field) (st : State) :
  match process_field args requests_post f st with
  | (st1, r1) =>
      (eligible f = true /\
       exists req, request_for args f req /\ posted st1 = posted st ++ [req])
      \/
      (posted st1 = posted st /\
       if eligible f then exists e, r1 = Raise e else st1 = st /\ r1 = Ok tt)
  end.
Proof.
  rewrite process_field_guard.
  destruct (eligible f) eqn:He; [|right; repeat split].
  rewrite register_and_count_eq.
  destruct (get_size f) as [size|e] eqn:Hs; [|right; split; eauto].
  destruct (get_md5_checksum f) as [checksum|e] eqn:Hc; [|right; split; eauto].
  rewrite register_file_eq.
  destruct (strip_server_url (get_uri f)) as [fid|e] eqn:Hf;
    [|right; split; eauto].
  cbv zeta.
  assert (Hreq : request_for args f
                   (request_of args (payload_of args fid size checksum))).
  { exists size, checksum, fid. auto. }
  destruct (requests_post _ _) as [status_code content|e].
  - destruct (status_code =? CREATED); simpl.
    + destruct size as [n|].
      * destruct (log_now args _); left; split; eauto.
      * left; split; eauto.
    + left; split; eauto.
  - simpl. left; split; eauto.
Qed.

Lemma process_field_requests_kept (f : Field) :
  steps (keeps (fun st => Forall (request_from_args args) (posted st)))
    (process_field args requests_post f).
Proof.
  intros st Hst. unfold exec.
  pose proof (process_field_request f st) as H.
  destruct (process_field args requests_post f st) as [st1 r1]. simpl.
  destruct H as [[_ (req & (size & ck & fid & _ & _ & _ & ->) & ->)]|[-> _]];
    [|exact Hst].
  apply Forall_app. split; [exact Hst|].
  constructor; [apply request_of_from_args|constructor].
Qed.

(** Every request of a run carries the configuration of the command line
    and uses one file id as storage file id and as destination path. *)
Theorem requests_carry_configuration (st : State) :
  Forall (request_from_args args) (posted st) ->
  Forall (request_from_args args)
    (posted (exec (main args marc21_xml requests_post) st)).
Proof.
  set (I := fun st => Forall (request_from_args args) (posted st)).
  pose proof (keeps_refl I) as Hr. pose proof (keeps_trans I) as Ht.
  assert (Hprint : forall o, steps (keeps I) (print o)).
  { intros o st0 H0. exact H0. }
  revert st. change (steps (keeps I) (main args marc21_xml requests_post)).
  unfold main. apply (steps_bind _ Ht).
  { apply (steps_for_each _ Hr Ht). intros u _. unfold process_collection.
    apply (steps_bind _ Ht); [apply Hprint|intros _].
    apply (steps_bind _ Ht); [apply (steps_lift _ Hr)|intros [fs|]].
    - apply (steps_for_each _ Hr Ht). intros f _.
      apply process_field_requests_kept.
    - apply (steps_raise _ Hr). }
  intros _. apply (steps_bind _ Ht); [apply (steps_get _ Hr)|intros st1].
  apply (steps_bind _ Ht); [apply Hprint|intros _].
  apply (steps_bind _ Ht); [apply (steps_get _ Hr)|intros st2]. apply Hprint.
Qed.

(** The requests made over a list of fields are those of its eligible
    fields, one each and in their order: all of them when the loop ends
    normally, those of a first part of them when it ends with an
    exception. Nothing is sent for a field that is not eligible and
    nothing is sent twice or dropped as a duplicate. *)
Theorem requests_follow_eligible_fields (fs : list Field) (st : State) :
  match for_each fs (process_field args requests_post) st with
  | (st', r) =>
      exists reqs sent rest,
        filter eligible fs = sent ++ rest /\
        posted st' = posted st ++ reqs /\
        Forall2 (request_for args) sent reqs /\
        (r = Ok tt -> rest = [])
  end.
Proof.
  revert st. induction fs as [|f fs IH]; intros st; simpl.
  - exists [], [], []. repeat split; auto. now rewrite app_nil_r.
  - unfold bind. pose proof (process_field_request f st) as Hf.
    destruct (process_field args requests_post f st) as [st1 r1].
    destruct Hf as [[He (req & Hreq & Hp)]|[Hp Hr]].
    + rewrite He.
      destruct r1 as [[]|e].
      * specialize (IH st1).
        destruct (for_each fs _ st1) as [st' r].
        destruct IH as (reqs & sent & rest & Hfs & Hp' & Hall & Hok).
        exists (req :: reqs), (f :: sent), rest. repeat split.
        -- simpl. now rewrite Hfs.
        -- rewrite Hp', Hp, <- app_assoc. reflexivity.
        -- now constructor.
        -- exact Hok.
      * exists [req], [f], (filter eligible fs). repeat split; auto.
        discriminate.
    + destruct (eligible f).
      * destruct Hr as [e ->]. exists [], [], (f :: filter eligible fs).
        repeat split; auto; [now rewrite app_nil_r|discriminate].
      * destruct Hr as [-> ->]. apply IH.
Qed.

End Requests.

(** ** Accounting *)

Lemma accounted_refl (st : State) : accounted st st.
Proof. unfold accounted, new_requests, new_outcomes. lia. Qed.

Lemma accounted_but_one_refl (st : State) : accounted_but_one st st.
Proof. unfold accounted_but_one, new_requests, new_outcomes. lia. Qed.

Lemma accounted_trans (a b c : State) :
  accounted a b -> accounted b c -> accounted a c.
Proof. unfold accounted, new_requests, new_outcomes. lia. Qed.

Lemma accounted_then_but_one (a b c : State) :
  accounted a b -> accounted_but_one b c -> accounted_but_one a c.
Proof. unfold accounted, accounted_but_one, new_requests, new_outcomes. lia. Qed.

Section Accounting.

Variable args : Args.
Variable marc21_xml : string -> result (list MarcRecord).
Variable requests_post : list PostRequest -> PostRequest -> post_outcome.

#[local] Set Default Proof Using "Type".

Lemma process_field_accounted (f : Field) :
  outcome_rel accounted accounted_but_one (process_field args requests_post f).
Proof.
  intros st. rewrite process_field_guard.
  destruct (eligible f); [|apply accounted_refl].
  rewrite register_and_count_eq.
  destruct (get_size f) as [size|e]; [|apply accounted_but_one_refl].
  destruct (get_md5_checksum f) as [checksum|e]; [|apply accounted_but_one_refl].
  rewrite register_file_eq.
  destruct (strip_server_url (get_uri f)) as [fid|e];
    [|apply accounted_but_one_refl].
  cbv zeta.
  destruct (requests_post _ _) as [status_code content|e].
  - destruct (status_code =? CREATED); simpl.
    + destruct size as [n|].
      * destruct (log_now args _);
          unfold accounted, new_requests, new_outcomes; simpl;
          rewrite length_app; simpl; lia.
      * unfold accounted_but_one, new_requests, new_outcomes; simpl.
        rewrite length_app; simpl; lia.
    + unfold accounted, new_requests, new_outcomes; simpl.
      rewrite !length_app; simpl; lia.
  - simpl. unfold accounted, new_requests, new_outcomes; simpl.
    rewrite !length_app; simpl; lia.
Qed.

Lemma print_accounted (o : Output) :
  outcome_rel accounted accounted_but_one (print o).
Proof.
  intros st. unfold accounted, new_requests, new_outcomes. simpl. lia.
Qed.

Lemma main_accounted :
  outcome_rel accounted accounted_but_one
    (main args marc21_xml requests_post).
Proof.
  pose proof accounted_refl as Nr. pose proof accounted_but_one_refl as Er.
  pose proof accounted_trans as Nt. pose proof accounted_then_but_one as NE.
  unfold main. apply (outcome_bind _ _ Nt NE).
  { apply (outcome_for_each _ _ Nr Nt NE). intros u _.
    unfold process_collection.
    apply (outcome_bind _ _ Nt NE); [apply print_accounted|intros _].
    apply (outcome_bind _ _ Nt NE); [apply (outcome_lift _ _ Nr Er)|intros [fs|]].
    - apply (outcome_for_each _ _ Nr Nt NE). intros f _.
      apply process_field_accounted.
    - apply (outcome_raise _ _ Er). }
  intros _. apply (outcome_bind _ _ Nt NE); [apply (outcome_get _ _ Nr)|intros st1].
  apply (outcome_bind _ _ Nt NE); [apply print_accounted|intros _].
  apply (outcome_bind _ _ Nt NE); [apply (outcome_get _ _ Nr)|intros st2].
  apply print_accounted.
Qed.

(** In a run that ends normally every request was either counted as a
    registered file or logged as a failure: the number of requests is
    [total_count] plus the number of log lines. In a run that ends with
    an exception at most one request is neither (the one whose file
    could not be added to the totals). *)
Theorem requests_are_counted_or_logged :
  match main args marc21_xml requests_post initial_state with
  | (final, Ok _) =>
      Z.of_nat (length (posted final))
      = total_count final + Z.of_nat (length (errors final))
  | (final, Raise _) =>
      total_count final + Z.of_nat (length (errors final))
      <= Z.of_nat (length (posted final))
      <= total_count final + Z.of_nat (length (errors final)) + 1
  end.
Proof.
  pose proof (main_accounted initial_state) as H.
  destruct (main args marc21_xml requests_post initial_state) as [final [u|e]];
    unfold accounted, accounted_but_one, new_requests, new_outcomes in H;
    simpl in H; lia.
Qed.

(** With a provider that answers 201 to every request, a loop over
    fields whose eligible members are readable and have a size ends
    normally, having counted every eligible field and added up their
    sizes; nothing is logged. *)
Lemma all_created_totals (fs : list Field) (st : State) :
  (forall history req, exists content,
     requests_post history req = Response 201 content) ->
  Forall (fun f => readable f /\ get_size f <> Ok None) (filter eligible fs) ->
  exists st',
    for_each fs (process_field args requests_post) st = (st', Ok tt) /\
    total_count st' = total_count st + Z.of_nat (length (filter eligible fs)) /\
    total_size st' = total_size st + declared_sizes (filter eligible fs) /\
    errors st' = errors st /\
    length (posted st') = (length (posted st) + length (filter eligible fs))%nat.
Proof.
  intros Hpost. revert st. induction fs as [|f fs IH]; intros st Hfs; simpl.
  - exists st. repeat split; simpl; lia.
  - unfold bind. rewrite process_field_guard.
    simpl in Hfs. destruct (eligible f) eqn:He.
    + inversion Hfs as [|? ? [(size & ck & fid & Hs & Hc & Hf) Hsome] Hrest]; subst.
      rewrite register_and_count_eq, Hs, Hc, register_file_eq, Hf. cbv zeta.
      destruct (Hpost (posted st)
                  (request_of args (payload_of args fid size ck))) as [content ->].
      change (201 =? CREATED) with true. cbv iota. simpl Py.truthy_bool.
      cbv iota. destruct size as [n|]; [|now elim Hsome].
      set (st1 := with_posted st _).
      assert (Hstep : exists st2,
        (if log_now args (total_count st1 + 1)
         then (with_stdout (counted st1 n)
                 (RegisteredFiles (total_count st1 + 1)), Ok tt)
         else (counted st1 n, Ok tt)) = (st2, Ok tt) /\
        total_count st2 = total_count st + 1 /\
        total_size st2 = total_size st + n /\
        errors st2 = errors st /\
        length (posted st2) = S (length (posted st))).
      { destruct (log_now args _); eexists; (split; [reflexivity|]);
          subst st1; simpl; rewrite length_app; simpl; repeat split; lia. }
      destruct Hstep as (st2 & -> & Hc2 & Hs2 & He2 & Hp2).
      destruct (IH st2 Hrest) as (st' & Hrun & Hc' & Hs' & He' & Hp').
      exists st'. rewrite Hrun. simpl. rewrite Hs.
      repeat split; try reflexivity; try congruence; lia.
    + apply IH. exact Hfs.
Qed.

(** With a provider that never answers 201 (another status, or no answer
    at all), a loop over fields whose eligible members are readable ends
    normally with both counters as they were and one log line for each
    eligible field; an absent size does no harm here. *)
Theorem none_created_totals (fs : list Field) (st : State) :
  (forall history req,
     match requests_post history req with
     | Response status_code _ => status_code <> 201
     | TransportError _ => True
     end) ->
  Forall readable (filter eligible fs) ->
  exists st',
    for_each fs (process_field args requests_post) st = (st', Ok tt) /\
    total_count st' = total_count st /\ total_size st' = total_size st /\
    stdout st' = stdout st /\
    length (errors st') = (length (errors st) + length (filter eligible fs))%nat /\
    length (posted st') = (length (posted st) + length (filter eligible fs))%nat.
Proof.
  intros Hpost. revert st. induction fs as [|f fs IH]; intros st Hfs; simpl.
  - exists st. repeat split; simpl; lia.
  - unfold bind. rewrite process_field_guard.
    simpl in Hfs. destruct (eligible f) eqn:He.
    + inversion Hfs as [|? ? (size & ck & fid & Hs & Hc & Hf) Hrest]; subst.
      rewrite register_and_count_eq, Hs, Hc, register_file_eq, Hf. cbv zeta.
      specialize (Hpost (posted st)
                    (request_of args (payload_of args fid size ck))).
      set (req := request_of args (payload_of args fid size ck)) in *.
      assert (Hstep : exists st2,
        match
          match requests_post (posted st) req with
          | Response status_code content =>
              if status_code =? CREATED
              then (with_posted st req, Ok (Some true))
              else (with_error (with_posted st req)
                      (FailedWithStatus fid status_code content),
                    Ok (Some false))
          | TransportError e =>
              (with_error (with_posted st req) (FailedDueTo fid e), Ok None)
          end
        with
        | (st1, Ok registered) =>
            if Py.truthy_bool registered
            then match size with
                 | Some n =>
                     if log_now args (total_count st1 + 1)
                     then (with_stdout (counted st1 n)
                             (RegisteredFiles (total_count st1 + 1)), Ok tt)
                     else (counted st1 n, Ok tt)
                 | None => (st1, Raise TypeError)
                 end
            else (st1, Ok tt)
        | (st1, Raise e) => (st1, Raise e)
        end = (st2, Ok tt) /\
        total_count st2 = total_count st /\ total_size st2 = total_size st /\
        stdout st2 = stdout st /\
        length (errors st2) = S (length (errors st)) /\
        length (posted st2) = S (length (posted st))).
      { destruct (requests_post (posted st) req) as [status_code content|e].
        - destruct (status_code =? CREATED) eqn:Hst.
          + apply Z.eqb_eq in Hst. now elim Hpost.
          + eexists. split; [reflexivity|]. simpl. rewrite !length_app. simpl.
            repeat split; lia.
        - eexists. split; [reflexivity|]. simpl. rewrite !length_app. simpl.
          repeat split; lia. }
      destruct Hstep as (st2 & -> & Hc2 & Hs2 & Ho2 & He2 & Hp2).
      destruct (IH st2 Hrest) as (st' & Hrun & Hc' & Hs' & Ho' & He' & Hp').
      exists st'. rewrite Hrun. simpl.
      repeat split; try reflexivity; try congruence; lia.
    + apply IH. exact Hfs.
Qed.

End Accounting.

(** ** Output *)

Lemma collection_lines_app (a b : list Output) :
  collection_lines (a ++ b) = collection_lines a ++ collection_lines b.
Proof.
  induction a as [|o a IH]; simpl; [reflexivity|].
  destruct o; simpl; now rewrite IH.
Qed.

Section OutputLines.

Variable args : Args.
Variable marc21_xml : string -> result (list MarcRecord).
Variable requests_post : list PostRequest -> PostRequest -> post_outcome.

#[local] Set Default Proof Using "Type".

(** The loop over the fields prints progress lines only. *)
Lemma fields_loop_output (fs : list Field) (st : State) :
  let st' := exec (for_each fs (process_field args requests_post)) st in
  filter is_summary (stdout st') = filter is_summary (stdout st) /\
  collection_lines (stdout st') = collection_lines (stdout st).
Proof.
  set (R := fun a b : State =>
    filter is_summary (stdout b) = filter is_summary (stdout a) /\
    collection_lines (stdout b) = collection_lines (stdout a)).
  assert (Hr : forall a, R a a) by (intros a; split; reflexivity).
  assert (Ht : forall a b c, R a b -> R b c -> R a c).
  { intros a b c [H1 H2] [H3 H4]. split; congruence. }
  apply (steps_for_each R Hr Ht). intros f _ st0.
  pose proof (process_field_output args requests_post f st0) as Ho.
  cbv zeta in Ho. unfold R. rewrite Ho, filter_app, collection_lines_app.
  destruct (_ && _); simpl; now rewrite !app_nil_r.
Qed.

Lemma process_collection_output (collection_url : string) (st : State) :
  let st' := exec (process_collection args marc21_xml requests_post
                     collection_url) st in
  filter is_summary (stdout st') = filter is_summary (stdout st) /\
  collection_lines (stdout st')
  = collection_lines (stdout st) ++ [collection_url].
Proof.
  unfold exec, process_collection, bind, print, modify, lift.
  destruct (get_file_fields marc21_xml collection_url) as [[fs|]|e]; simpl.
  - pose proof (fields_loop_output fs
                  (with_stdout st (ProcessingCollection collection_url))) as H.
    unfold exec in H. cbv zeta in H.
    destruct (for_each fs _ _) as [st' r]. simpl in *.
    rewrite filter_app, collection_lines_app in H. simpl in H.
    now rewrite app_nil_r in H.
  - rewrite filter_app, collection_lines_app. simpl. now rewrite app_nil_r.
  - rewrite filter_app, collection_lines_app. simpl. now rewrite app_nil_r.
Qed.

Lemma collections_loop_output (urls : list string) (st : State) :
  match for_each urls (process_collection args marc21_xml requests_post) st with
  | (st', r) =>
      filter is_summary (stdout st') = filter is_summary (stdout st) /\
      match r with
      | Ok _ => collection_lines (stdout st') = collection_lines (stdout st) ++ urls
      | Raise _ =>
          exists done u rest,
            urls = done ++ u :: rest /\
            collection_lines (stdout st')
            = collection_lines (stdout st) ++ done ++ [u]
      end
  end.
Proof.
  revert st. induction urls as [|u urls IH]; intros st; simpl.
  - split; [reflexivity|now rewrite app_nil_r].
  - unfold bind.
    pose proof (process_collection_output u st) as [Hs Hc].
    unfold exec in Hs, Hc.
    destruct (process_collection args marc21_xml requests_post u st)
      as [st1 [[]|e]]; simpl in Hs, Hc.
    + specialize (IH st1). destruct (for_each urls _ st1) as [st' r].
      destruct IH as [Hs' Hc']. split; [congruence|].
      destruct r as [[]|e'].
      * rewrite Hc', Hc, <- app_assoc. reflexivity.
      * destruct Hc' as (done & u' & rest & -> & Hc').
        exists (u :: done), u', rest. split; [reflexivity|].
        rewrite Hc', Hc, <- app_assoc. reflexivity.
    + split; [exact Hs|]. exists [], u, urls. split; [reflexivity|exact Hc].
Qed.

(** The summary is printed exactly when the run ends normally: it is then
    the last two lines of the output and shows the final counters; the
    output of a run that ends with an exception has no summary line, so
    that the files counted until then are not reported. *)
Theorem summary_only_after_normal_end :
  match main args marc21_xml requests_post initial_state with
  | (final, Ok _) =>
      exists out,
        stdout final
        = out ++ [TotalCount (total_count final); TotalSize (total_size final)]
        /\ filter is_summary out = []
  | (final, Raise _) => filter is_summary (stdout final) = []
  end.
Proof.
  unfold main. unfold bind at 1.
  pose proof (collections_loop_output (collections args) initial_state) as H.
  destruct (for_each (collections args) _ initial_state) as [st1 [[]|e]];
    destruct H as [Hs _]; simpl in Hs.
  - simpl. exists (stdout st1). split; [|exact Hs].
    now rewrite <- app_assoc.
  - exact Hs.
Qed.

(** The collections are announced in the order of the command line, one
    line each: all of them when the run ends normally, and those up to
    the one in which the exception was raised otherwise. *)
Theorem collections_announced_in_order :
  match main args marc21_xml requests_post initial_state with
  | (final, Ok _) => collection_lines (stdout final) = collections args
  | (final, Raise _) =>
      exists done u rest,
        collections args = done ++ u :: rest /\
        collection_lines (stdout final) = done ++ [u]
  end.
Proof.
  unfold main. unfold bind at 1.
  pose proof (collections_loop_output (collections args) initial_state) as H.
  destruct (for_each (collections args) _ initial_state) as [st1 [[]|e]];
    destruct H as [_ Hc]; simpl in Hc.
  - simpl. rewrite !collection_lines_app. simpl. rewrite !app_nil_r. exact Hc.
  - exact Hc.
Qed.

End OutputLines.

(** ** File ids that are bare paths or plain URLs *)

Local Open Scope string_scope.

Lemma all_chars_impl (p q : ascii -> bool) (s : string) :
  (forall c, p c = true -> q c = true) ->
  Urllib.all_chars p s = true -> Urllib.all_chars q s = true.
Proof.
  intros Hpq. induction s as [|c s IH]; simpl; [reflexivity|].
  rewrite !andb_true_iff. intros [Hc Hs]. auto.
Qed.

Lemma all_chars_app (p : ascii -> bool) (a b : string) :
  Urllib.all_chars p (a ++ b)
  = Urllib.all_chars p a && Urllib.all_chars p b.
Proof.
  induction a as [|c a IH]; simpl; [reflexivity|].
  now rewrite IH, andb_assoc.
Qed.

Lemma remove_id (p : ascii -> bool) (s : string) :
  Urllib.all_chars (fun c => negb (p c)) s = true -> Urllib.remove p s = s.
Proof.
  induction s as [|c s IH]; simpl; [reflexivity|].
  rewrite andb_true_iff, negb_true_iff. intros [-> Hs]. now rewrite IH.
Qed.

Lemma break_app (p : ascii -> bool) (a b : string) :
  Urllib.all_chars (fun c => negb (p c)) a = true ->
  match b with EmptyString => true | String c _ => p c end = true ->
  Urllib.break p (a ++ b) = (a, b).
Proof.
  intros Ha Hb. induction a as [|c a IH]; simpl.
  - destruct b as [|c b]; simpl; [reflexivity|now rewrite Hb].
  - simpl in Ha. rewrite andb_true_iff, negb_true_iff in Ha.
    destruct Ha as [-> Ha]. now rewrite (IH Ha).
Qed.

Lemma break_not_contains (c : ascii) (s : string) :
  Py.contains c s = false -> Urllib.break (Ascii.eqb c) s = (s, "").
Proof.
  induction s as [|d s IH]; simpl; [reflexivity|].
  rewrite orb_false_iff. intros [-> Hs]. now rewrite (IH Hs).
Qed.

Lemma split_once_not_contains (c : ascii) (s : string) :
  Py.contains c s = false -> Urllib.split_once c s = (s, "").
Proof.
  intros H. unfold Urllib.split_once. now rewrite (break_not_contains c s H).
Qed.

Lemma not_contains_all_chars (p : ascii -> bool) (d : ascii) (s : string) :
  (forall c, p c = true -> Ascii.eqb d c = false) ->
  Urllib.all_chars p s = true -> Py.contains d s = false.
Proof.
  intros Hp. induction s as [|c s IH]; simpl; [reflexivity|].
  rewrite andb_true_iff. intros [Hc Hs]. now rewrite (Hp c Hc), IH.
Qed.

(** The scheme found by [urlparse] is the one cut off by
    [split_scheme]. *)
Lemma urlparse_scheme (s : string) (parsed : Urllib.ParseResult) :
  Urllib.urlparse (Some s) = Ok parsed ->
  Urllib.scheme parsed
  = fst (Urllib.split_scheme
           (Urllib.remove Urllib.is_unsafe
              (Py.lstrip Urllib.is_c0_or_space s))).
Proof.
  unfold Urllib.urlparse, Urllib.urlsplit.
  destruct (Urllib.split_scheme _) as [sch rest]. simpl fst.
  match goal with
  | |- context [rbind (rbind ?x _) _] => destruct x as [[netloc u]|e]
  end; simpl; [|discriminate].
  destruct (Urllib.split_once "#" u) as [u1 fr].
  destruct (Urllib.split_once "?" u1) as [u2 q]. simpl.
  match goal with
  | |- context [let (_, _) := ?x in _] => destruct x as [u3 params]
  end.
  intros H. injection H as <-. reflexivity.
Qed.

(** A file id that is a bare path is passed through: an ASCII string
    without square brackets that has no ':' at all, or that starts with
    '/', comes back unchanged. *)
Theorem bare_paths_pass_through (s : string) :
  Urllib.all_chars Py.is_ascii s = true ->
  Py.contains "[" s = false -> Py.contains "]" s = false ->
  Py.contains ":" s = false \/ (exists t, s = String "/" t) ->
  strip_server_url (Some s) = Ok (Some s).
Proof.
  intros _ Ho Hc Hbare.
  destruct (urlparse_no_bracket s Ho Hc) as [parsed Hp].
  pose proof (urlparse_scheme s parsed Hp) as Hsch.
  assert (Hempty :
    fst (Urllib.split_scheme
           (Urllib.remove Urllib.is_unsafe
              (Py.lstrip Urllib.is_c0_or_space s))) = "").
  { destruct Hbare as [Hcolon|[t ->]].
    - unfold Urllib.split_scheme.
      rewrite (break_not_contains ":" _
                 (contains_remove ":" _ _ (contains_lstrip ":" _ _ Hcolon))).
      now destruct (Urllib.remove _ _).
    - simpl. unfold Urllib.split_scheme. simpl.
      destruct (Urllib.break (Ascii.eqb ":") (Urllib.remove Urllib.is_unsafe t))
        as [a [|c b]]; reflexivity. }
  unfold strip_server_url. rewrite Hp. simpl. now rewrite Hsch, Hempty.
Qed.

Ltac each_ascii c :=
  destruct c as [[] [] [] [] [] [] [] []]; try reflexivity; try discriminate.

Lemma alpha_not_stripped (c : ascii) :
  Urllib.is_alpha c = true -> Urllib.is_c0_or_space c = false.
Proof. each_ascii c. Qed.

Lemma scheme_char_kept (c : ascii) :
  Urllib.is_scheme_char c = true ->
  negb (Urllib.is_unsafe c) = true /\ negb (Ascii.eqb ":" c) = true.
Proof. each_ascii c; intros _; split; reflexivity. Qed.

Lemma host_char_kept (c : ascii) :
  host_char c = true ->
  negb (Urllib.is_unsafe c) = true /\ negb (Py.contains c "/?#") = true /\
  Ascii.eqb "[" c = false /\ Ascii.eqb "]" c = false.
Proof. each_ascii c; intros _; repeat split; reflexivity. Qed.

Lemma path_char_kept (c : ascii) :
  path_char c = true ->
  negb (Urllib.is_unsafe c) = true /\ Ascii.eqb "#" c = false /\
  Ascii.eqb "?" c = false /\ Ascii.eqb ";" c = false.
Proof. each_ascii c; intros _; repeat split; reflexivity. Qed.

Lemma urlsplit_plain (sch host path : string) :
  valid_scheme sch = true ->
  Urllib.all_chars host_char host = true ->
  Urllib.all_chars path_char path = true ->
  rooted path = true ->
  Urllib.urlsplit (sch ++ "://" ++ host ++ path)
  = Ok (Urllib.lower sch, host, path, "", "").
Proof.
  intros Hsch Hhost Hpath Hroot.
  destruct sch as [|c0 sch]; [discriminate|].
  simpl in Hsch. apply andb_true_iff in Hsch. destruct Hsch as [Halpha Hchars].
  assert (Hall : Urllib.all_chars Urllib.is_scheme_char (String c0 sch) = true)
    by exact Hchars.
  unfold Urllib.urlsplit.
  assert (Hstrip : Py.lstrip Urllib.is_c0_or_space
                     (String c0 sch ++ "://" ++ host ++ path)
                   = String c0 sch ++ "://" ++ host ++ path).
  { simpl. now rewrite (alpha_not_stripped c0 Halpha). }
  rewrite Hstrip. clear Hstrip.
  rewrite remove_id.
  2:{ rewrite !all_chars_app. rewrite !andb_true_iff. repeat split.
      - apply (all_chars_impl Urllib.is_scheme_char); [|exact Hall].
        intros c Hc. apply (scheme_char_kept c Hc).
      - apply (all_chars_impl host_char); [|exact Hhost].
        intros c Hc. apply (host_char_kept c Hc).
      - apply (all_chars_impl path_char); [|exact Hpath].
        intros c Hc. apply (path_char_kept c Hc). }
  assert (Hscheme : Urllib.split_scheme (String c0 sch ++ "://" ++ host ++ path)
                    = (Urllib.lower (String c0 sch), "//" ++ host ++ path)).
  { unfold Urllib.split_scheme.
    change (String c0 sch ++ "://" ++ host ++ path)
      with (String c0 sch ++ String ":" ("//" ++ host ++ path)).
    rewrite break_app.
    - now rewrite Halpha, Hall.
    - apply (all_chars_impl Urllib.is_scheme_char); [|exact Hall].
      intros c Hc. apply (scheme_char_kept c Hc).
    - reflexivity. }
  rewrite Hscheme. clear Hscheme.
  change ("//" ++ host ++ path) with (String "/" (String "/" (host ++ path))).
  cbv iota beta. unfold Urllib.splitnetloc.
  rewrite break_app.
  2:{ apply (all_chars_impl host_char); [|exact Hhost].
      intros c Hc. apply (host_char_kept c Hc). }
  2:{ destruct path as [|c path]; [reflexivity|]. simpl in Hroot.
      apply Ascii.eqb_eq in Hroot. now subst c. }
  rewrite (not_contains_all_chars host_char "[" host), 
    (not_contains_all_chars host_char "]" host); try exact Hhost.
  2,3: intros c Hc; apply (host_char_kept c Hc).
  simpl.
  rewrite (split_once_not_contains "#" path).
  2:{ apply (not_contains_all_chars path_char); [|exact Hpath].
      intros c Hc. apply (path_char_kept c Hc). }
  rewrite (split_once_not_contains "?" path).
  2:{ apply (not_contains_all_chars path_char); [|exact Hpath].
      intros c Hc. apply (path_char_kept c Hc). }
  reflexivity.
Qed.

(** A file id that is a plain URL gives its path: for a well-formed
    scheme, a host and a path (empty, or starting with '/', without
    query, fragment or parameters), [scheme://host/path] is resolved to
    [/path], whatever the scheme and the host. *)
Theorem plain_urls_give_their_path (sch host path : string) :
  valid_scheme sch = true ->
  Urllib.all_chars host_char host = true ->
  Urllib.all_chars path_char path = true ->
  rooted path = true ->
  strip_server_url (Some (sch ++ "://" ++ host ++ path)) = Ok (Some path).
Proof.
  intros Hsch Hhost Hpath Hroot.
  unfold strip_server_url, Urllib.urlparse.
  rewrite (urlsplit_plain sch host path Hsch Hhost Hpath Hroot). simpl.
  rewrite (not_contains_all_chars path_char ";" path); [|intros c Hc; apply (path_char_kept c Hc)|exact Hpath].
  rewrite andb_false_r. simpl.
  destruct sch as [|c0 sch]; [discriminate|]. reflexivity.
Qed.

Lemma bare_paths_pass_through_witness :
  strip_server_url (Some "/a/b.mp4") = Ok (Some "/a/b.mp4") /\
  strip_server_url (Some "videos/2012/b.mp4") = Ok (Some "videos/2012/b.mp4").
Proof.
  split.
  - apply bare_paths_pass_through; try reflexivity. right. now exists "a/b.mp4".
  - apply bare_paths_pass_through; try reflexivity. now left.
Defined.

Lemma plain_urls_give_their_path_witness :
  strip_server_url (Some "https://host/a/b.mp4") = Ok (Some "/a/b.mp4") /\
  strip_server_url (Some "root://eospublic.cern.ch:1094/eos/opendata/f.mkv")
  = Ok (Some "/eos/opendata/f.mkv").
Proof.
  split.
  - exact (plain_urls_give_their_path "https" "host" "/a/b.mp4"
             eq_refl eq_refl eq_refl eq_refl).
  - exact (plain_urls_give_their_path "root" "eospublic.cern.ch:1094"
             "/eos/opendata/f.mkv" eq_refl eq_refl eq_refl eq_refl).
Defined.

(** ** Sizes written in decimal *)

Lemma rstrip_id (p : ascii -> bool) (s : string) :
  Urllib.all_chars (fun c => negb (p c)) s = true -> Py.rstrip p s = s.
Proof.
  induction s as [|c s IH]; simpl; [reflexivity|].
  rewrite andb_true_iff, negb_true_iff. intros [Hc Hs].
  rewrite (IH Hs). destruct s; [now rewrite Hc|reflexivity].
Qed.

Lemma strip_id (p : ascii -> bool) (s : string) :
  Urllib.all_chars (fun c => negb (p c)) s = true -> Py.strip p s = s.
Proof.
  intros H. unfold Py.strip.
  assert (Hl : Py.lstrip p s = s).
  { destruct s as [|c s]; [reflexivity|]. simpl in *.
    apply andb_true_iff in H. destruct H as [Hc _].
    apply negb_true_iff in Hc. now rewrite Hc. }
  rewrite Hl. now apply rstrip_id.
Qed.

Lemma digits_no_space (d : Decimal.uint) :
  Urllib.all_chars (fun c => negb (Py.is_space c))
    (NilEmpty.string_of_uint d) = true.
Proof. induction d; simpl; auto. Qed.

Lemma int_digits_acc (d : Decimal.uint) (acc : positive) :
  Py.int_digits (NilEmpty.string_of_uint d) (Z.pos acc) true
  = Some (Z.pos (Pos.of_uint_acc d acc)).
Proof.
  revert acc. induction d; intros acc; [reflexivity|..];
    cbn [NilEmpty.string_of_uint Py.int_digits Pos.of_uint_acc];
    match goal with
    | |- context [Py.is_digit ?c] => change (Py.is_digit c) with true
    end; cbv iota; rewrite <- IHd; f_equal; unfold Py.digit_val;
    match goal with
    | |- context [nat_of_ascii ?c] =>
        let v := eval compute in (Z.of_nat (nat_of_ascii c)) in
        change (Z.of_nat (nat_of_ascii c)) with v
    end; lia.
Qed.

Lemma int_digits_uint (d : Decimal.uint) (prev : bool) :
  d <> Decimal.Nil \/ prev = true ->
  Py.int_digits (NilEmpty.string_of_uint d) 0 prev
  = Some (Z.of_N (Pos.of_uint d)).
Proof.
  revert prev. induction d; intros prev Hd; simpl.
  - destruct Hd as [Hd| ->]; [now elim Hd|reflexivity].
  - apply IHd. now right.
  - apply (int_digits_acc d 1).
  - apply (int_digits_acc d 2).
  - apply (int_digits_acc d 3).
  - apply (int_digits_acc d 4).
  - apply (int_digits_acc d 5).
  - apply (int_digits_acc d 6).
  - apply (int_digits_acc d 7).
  - apply (int_digits_acc d 8).
  - apply (int_digits_acc d 9).
Qed.

(** [int] reads back what [str] prints. *)
Lemma int_of_str (n : Z) : Py.int (Py.str_of_int n) = Ok n.
Proof.
  unfold Py.str_of_int, NilZero.string_of_int, NilZero.string_of_uint.
  destruct n as [|p|p]; simpl Z.to_int; cbv iota.
  - reflexivity.
  - pose proof (DecimalPos.Unsigned.to_uint_nonnil p) as Hnil.
    pose proof (DecimalPos.Unsigned.of_to p) as Hof.
    pose proof (int_digits_uint (Pos.to_uint p) false (or_introl Hnil)) as Hd.
    pose proof (digits_no_space (Pos.to_uint p)) as Hsp.
    unfold Py.int.
    destruct (Pos.to_uint p) as [|d|d|d|d|d|d|d|d|d|d]; [now elim Hnil|..];
      rewrite (strip_id _ _ Hsp);
      cbn [NilEmpty.string_of_uint] in Hd |- *; cbv iota;
      rewrite Hd, Hof; reflexivity.
  - pose proof (DecimalPos.Unsigned.to_uint_nonnil p) as Hnil.
    pose proof (DecimalPos.Unsigned.of_to p) as Hof.
    pose proof (int_digits_uint (Pos.to_uint p) false (or_introl Hnil)) as Hd.
    pose proof (digits_no_space (Pos.to_uint p)) as Hsp.
    unfold Py.int.
    assert (Hs : Py.strip Py.is_space
                   (String "-" (NilEmpty.string_of_uint (Pos.to_uint p)))
                 = String "-" (NilEmpty.string_of_uint (Pos.to_uint p))).
    { apply strip_id. simpl. exact Hsp. }
    destruct (Pos.to_uint p) as [|d|d|d|d|d|d|d|d|d|d]; [now elim Hnil|..];
      rewrite Hs; cbv iota; rewrite Hd, Hof; reflexivity.
Qed.

(** The size accessor reads back every integer written in decimal as
    [str] prints it, zero and negative numbers included: a first value
    [str(n)] of subfield 's' gives the size [n], whatever the later
    values of the subfield. *)
Theorem get_size_reads_decimal (f : Field) (n : Z) (rest : list string) :
  get_subfields f "s" = (Py.str_of_int n :: rest)%list ->
  get_size f = Ok (Some n).
Proof.
  intros Hs. unfold get_size, get_subfield. rewrite Hs.
  assert (Hne : Py.truthy_str (Some (Py.str_of_int n)) = true).
  { pose proof (int_of_str n) as Hi.
    destruct (Py.str_of_int n); [discriminate Hi|reflexivity]. }
  rewrite Hne. now rewrite int_of_str.
Qed.

Lemma get_size_reads_decimal_witness :
  get_size Sample.mp4 = Ok (Some 1000) /\
  get_size Sample.negative_size = Ok (Some (-5)).
Proof.
  split.
  - exact (get_size_reads_decimal Sample.mp4 1000 [] eq_refl).
  - exact (get_size_reads_decimal Sample.negative_size (-5) [] eq_refl).
Defined.

(** ** Whole runs *)

Local Open Scope list_scope.

Lemma declared_sizes_app (a b : list Field) :
  declared_sizes (a ++ b) = declared_sizes a + declared_sizes b.
Proof.
  induction a as [|f a IH]; simpl; [reflexivity|].
  destruct (get_size f) as [[n|]|e]; lia.
Qed.

Section WholeRuns.

Variable args : Args.
Variable marc21_xml : string -> result (list MarcRecord).
Variable requests_post : list PostRequest -> PostRequest -> post_outcome.

#[local] Set Default Proof Using "Type".

(** A file id that [urlparse] rejects is not a failure of the transport:
    [strip_server_url] runs before the [try] block, so its exception is
    not caught and ends the run when the run reaches the field, no
    request being sent for it. *)
Theorem unresolvable_uri_is_fatal (f : Field) (st : State)
    (size : option Z) (checksum : string) (e : exn) :
  run_reaches args marc21_xml requests_post f st ->
  eligible f = true ->
  get_size f = Ok size ->
  get_md5_checksum f = Ok checksum ->
  strip_server_url (get_uri f) = Raise e ->
  register_file args requests_post (get_uri f) size checksum st
  = (st, Raise e) /\
  main args marc21_xml requests_post initial_state = (st, Raise e).
Proof.
  intros Hreach He Hs Hc Hf.
  assert (Hreg : register_file args requests_post (get_uri f) size checksum st
                 = (st, Raise e)).
  { now rewrite register_file_eq, Hf. }
  split; [exact Hreg|].
  apply (run_reaches_abort args marc21_xml requests_post f st st e Hreach).
  now rewrite process_field_guard, He, register_and_count_eq, Hs, Hc, Hreg.
Qed.

(** An eligible field without subfield 'u' is not skipped: the request
    for it is sent all the same, with a null storage file id and a null
    destination path. *)
Theorem missing_uri_is_sent_as_null (f : Field) (st : State)
    (size : option Z) (checksum : string) :
  eligible f = true ->
  get_subfields f "u" = [] ->
  get_size f = Ok size ->
  get_md5_checksum f = Ok checksum ->
  let req := request_of args (payload_of args None size checksum) in
  posted (exec (process_field args requests_post f) st) = posted st ++ [req] /\
  Json.storageFileId (json req) = None /\
  Json.destinationPath (json req) = None.
Proof.
  intros He Hu Hs Hc req. split; [|split; reflexivity].
  assert (Huri : get_uri f = None).
  { unfold get_uri, get_subfield. now rewrite Hu. }
  unfold exec.
  rewrite process_field_guard, He, register_and_count_eq, Hs, Hc,
    register_file_eq, Huri.
  change (strip_server_url None) with (@Ok (option string) None).
  cbv iota zeta. fold req.
  destruct (requests_post (posted st) req) as [status_code content|e0].
  - destruct (status_code =? CREATED)%Z; simpl; [|reflexivity].
    destruct size as [n|]; [|reflexivity].
    now destruct (log_now args _).
  - reflexivity.
Qed.

Lemma all_created_collections (urls : list string) (st : State) :
  (forall history req, exists content,
     requests_post history req = Response 201 content) ->
  (forall u, In u urls -> exists r rs, marc21_xml u = Ok (r :: rs)) ->
  Forall (fun f => readable f /\ get_size f <> Ok None)
    (filter eligible (flat_map (link_fields marc21_xml) urls)) ->
  exists st',
    for_each urls (process_collection args marc21_xml requests_post) st
    = (st', Ok tt) /\
    total_count st'
    = total_count st
      + Z.of_nat (length (filter eligible
                            (flat_map (link_fields marc21_xml) urls))) /\
    total_size st'
    = total_size st
      + declared_sizes (filter eligible
                          (flat_map (link_fields marc21_xml) urls)) /\
    errors st' = errors st /\
    length (posted st')
    = (length (posted st)
       + length (filter eligible (flat_map (link_fields marc21_xml) urls)))%nat.
Proof.
  intros Hpost. revert st. induction urls as [|u urls IH]; intros st Hm Hfs.
  - exists st. simpl. repeat split; lia.
  - simpl in Hfs |- *. rewrite filter_app in Hfs |- *.
    apply Forall_app in Hfs. destruct Hfs as [Hu Hrest].
    destruct (Hm u (or_introl eq_refl)) as (r & rs & Hr).
    assert (Hlf : link_fields marc21_xml u
                  = get_fields r ELECTRONIC_LOCATION_AND_ACCESS).
    { unfold link_fields. now rewrite Hr. }
    rewrite Hlf in Hu |- *.
    destruct (all_created_totals args requests_post
                (get_fields r ELECTRONIC_LOCATION_AND_ACCESS)
                (with_stdout st (ProcessingCollection u)) Hpost Hu)
      as (st1 & Hrun1 & Hc1 & Hs1 & He1 & Hp1).
    assert (Hstep : process_collection args marc21_xml requests_post u st
                    = (st1, Ok tt)).
    { unfold process_collection, bind, print, modify, lift.
      now rewrite (get_file_fields_record marc21_xml u r rs Hr). }
    destruct (IH st1 (fun v Hv => Hm v (or_intror Hv)) Hrest)
      as (st' & Hrun' & Hc' & Hs' & He' & Hp').
    unfold bind. rewrite Hstep, Hrun'.
    exists st'. simpl in Hc1, Hs1, He1, Hp1.
    rewrite length_app, declared_sizes_app.
    repeat split; try congruence; lia.
Qed.

(** With a provider that answers 201 to every request, collections that
    all have a record and eligible fields that are all readable and have
    a size, the run ends normally; it has counted every eligible link
    field of every collection and added up their sizes, across the
    collections, with one request for each and nothing logged. *)
Theorem all_created_run :
  (forall history req, exists content,
     requests_post history req = Response 201 content) ->
  (forall u, In u (collections args) ->
     exists r rs, marc21_xml u = Ok (r :: rs)) ->
  let fs := filter eligible
              (flat_map (link_fields marc21_xml) (collections args)) in
  Forall (fun f => readable f /\ get_size f <> Ok None) fs ->
  exists final,
    main args marc21_xml requests_post initial_state = (final, Ok tt) /\
    total_count final = Z.of_nat (length fs) /\
    total_size final = declared_sizes fs /\
    errors final = [] /\
    length (posted final) = length fs.
Proof.
  intros Hpost Hm fs Hfs.
  destruct (all_created_collections (collections args) initial_state
              Hpost Hm Hfs) as (st1 & Hrun & Hc & Hs & He & Hp).
  unfold main. unfold bind at 1. rewrite Hrun. simpl.
  eexists. split; [reflexivity|]. simpl. fold fs in Hc, Hs, Hp.
  simpl in Hc, Hs, He, Hp. repeat split; try assumption; lia.
Qed.

End WholeRuns.

(** ** Instances of the further properties on the sample data *)

Lemma unresolvable_uri_is_fatal_witness :
  let f := Sample.link "4" [Sample.sf "u" "http://["; Sample.sf "q" "MP4";
                            Sample.sf "s" "7"; Sample.sf "w" "z;0"] in
  main (Sample.args None ["https://catalog.example/1.xml"])
    (Sample.one_record [f]) (Sample.answers 201) initial_state
  = (with_stdout initial_state
       (ProcessingCollection "https://catalog.example/1.xml"),
     Raise ValueError).
Proof.
  intros f.
  exact (proj2 (unresolvable_uri_is_fatal
           (Sample.args None ["https://catalog.example/1.xml"])
           (Sample.one_record [f]) (Sample.answers 201) f _ (Some 7) "0"
           ValueError
           (sample_reached None f (Sample.answers 201) eq_refl)
           eq_refl eq_refl eq_refl eq_refl)).
Defined.

Lemma missing_uri_is_sent_as_null_witness :
  let f := Sample.link "4" [Sample.sf "q" "MP4"; Sample.sf "s" "7";
                            Sample.sf "w" "z;0"] in
  map (fun r => Json.storageFileId (json r))
    (posted (exec (process_field (Sample.args None []) (Sample.answers 201) f)
               initial_state))
  = [None].
Proof.
  intros f.
  rewrite (proj1 (missing_uri_is_sent_as_null (Sample.args None [])
             (Sample.answers 201) f initial_state (Some 7) "0"
             eq_refl eq_refl eq_refl eq_refl)).
  reflexivity.
Defined.

Lemma requests_carry_configuration_witness :
  Forall (request_from_args (Sample.args None ["https://catalog.example/1.xml"]))
    (posted (exec (main (Sample.args None ["https://catalog.example/1.xml"])
                     (Sample.one_record [Sample.mp4; Sample.mov])
                     (Sample.answers 201)) initial_state)).
Proof.
  apply requests_carry_configuration. constructor.
Defined.

Lemma requests_follow_eligible_fields_witness :
  match for_each [Sample.ftp; Sample.mp4; Sample.mov]
          (process_field (Sample.args None []) (Sample.answers 201))
          initial_state with
  | (st', r) =>
      exists reqs sent rest,
        filter eligible [Sample.ftp; Sample.mp4; Sample.mov] = sent ++ rest /\
        posted st' = posted initial_state ++ reqs /\
        Forall2 (request_for (Sample.args None [])) sent reqs /\
        (r = Ok tt -> rest = [])
  end.
Proof.
  exact (requests_follow_eligible_fields (Sample.args None [])
           (Sample.answers 201) [Sample.ftp; Sample.mp4; Sample.mov]
           initial_state).
Defined.

Lemma none_created_totals_witness :
  exists st',
    for_each [Sample.mp4; Sample.ftp; Sample.no_size]
      (process_field (Sample.args (Some 1) []) (Sample.answers 403))
      initial_state = (st', Ok tt) /\
    total_count st' = 0 /\ total_size st' = 0 /\ length (errors st') = 2%nat.
Proof.
  destruct (none_created_totals (Sample.args (Some 1) []) (Sample.answers 403)
              [Sample.mp4; Sample.ftp; Sample.no_size] initial_state)
    as (st' & Hrun & Hc & Hs & _ & He & _).
  - intros history req. simpl. discriminate.
  - change (Forall readable [Sample.mp4; Sample.no_size]).
    constructor; [|constructor; [|constructor]].
    + exists (Some 1000), "d41d8cd98f00b204e9800998ecf8427e", (Some "/a/b.mp4").
      repeat split.
    + exists None, "0", (Some "/a/g.mp4"). repeat split.
  - exists st'. repeat split; assumption.
Defined.

Lemma all_created_run_witness :
  exists final,
    main (Sample.args None ["https://catalog.example/1.xml";
                            "https://catalog.example/2.xml"])
      (Sample.one_record [Sample.title; Sample.mp4; Sample.mov; Sample.ftp])
      (Sample.answers 201) initial_state = (final, Ok tt) /\
    total_count final = 4 /\ total_size final = 3000.
Proof.
  destruct (all_created_run
              (Sample.args None ["https://catalog.example/1.xml";
                                 "https://catalog.example/2.xml"])
              (Sample.one_record [Sample.title; Sample.mp4; Sample.mov; Sample.ftp])
              (Sample.answers 201))
    as (final & Hrun & Hc & Hs & _).
  - intros history req. now exists "".
  - intros u _. now exists {| fields := [Sample.title; Sample.mp4; Sample.mov;
                                          Sample.ftp] |}, [].
  - change (Forall (fun f => readable f /\ get_size f <> Ok None)
              [Sample.mp4; Sample.mov; Sample.mp4; Sample.mov]).
    assert (Hmp4 : readable Sample.mp4 /\ get_size Sample.mp4 <> Ok None).
    { split; [|intros H; vm_compute in H; discriminate H].
      exists (Some 1000), "d41d8cd98f00b204e9800998ecf8427e", (Some "/a/b.mp4").
      repeat split. }
    assert (Hmov : readable Sample.mov /\ get_size Sample.mov <> Ok None).
    { split; [|intros H; vm_compute in H; discriminate H].
      exists (Some 500), "0cc175b9c0f1b6a831c399e269772661", (Some "/a/c.mov").
      repeat split. }
    repeat (apply Forall_cons; [first [exact Hmp4|exact Hmov]|]).
    apply Forall_nil.
  - exists final. repeat split; assumption.
Defined.
